(** * Sustainability Tracker: the report builder and its helpers

    A shallow embedding of [app.py]: the helpers
    [compute_category_emissions] and [compute_streak], and the PDF report
    builder [build_eco_tips_pdf].

    Conventions of the embedding.
    - Python floats are modelled by their exact rational value ([Q]):
      sums, products and comparisons are exact, [round(x, 2)] and the
      [:.2f] format round half to even on that value.
    - Lengths are ReportLab points, [cm = inch / 2.54] with [inch = 72].
    - A [datetime.date] is its day ordinal ([Z]); subtracting one day is
      subtracting 1. The bounds [date.min]/[date.max] are not modelled.
    - A Python [dict] whose iteration order matters is an association
      list in insertion order; one that is only looked up is a [gmap].
    - The ReportLab canvas is the trace of drawing operations it was
      asked to perform; any operation may raise, as decided by a
      [surface] oracle.  Exceptions are values of an outcome type, and
      the canvas survives them as the Python object does. *)

From Stdlib Require Import ZArith QArith Qround Qabs Lqa Lia.
From Stdlib Require Import List String Ascii Sorted Permutation.
From Stdlib Require Import DecimalString.
From stdpp Require Import gmap strings.
Import ListNotations.

Local Open Scope string_scope.
Local Open Scope Q_scope.

(** ** Numbers *)

Module Num.

(** [round] on a float, half to even, to the nearest integer. *)
Definition round_half_even (q : Q) : Z :=
  let f := Qfloor q in
  match Qcompare (q - inject_Z f) (1 # 2) with
  | Lt => f
  | Gt => (f + 1)%Z
  | Eq => if Z.even f then f else (f + 1)%Z
  end.

(** Python's [round(x, 2)]. *)
Definition round2 (q : Q) : Q :=
  inject_Z (round_half_even (q * 100)) / 100.

Definition Z_to_string (n : Z) : string :=
  NilZero.string_of_uint (N.to_uint (Z.to_N n)).

Definition two_digits (n : Z) : string :=
  if (n <? 10)%Z then "0" ++ Z_to_string n else Z_to_string n.

(** The format [f"{x:.2f}"]: sign of [x], integer part, two decimals. *)
Definition format_2f (q : Q) : string :=
  let n := round_half_even (Qabs q * 100) in
  (if Qlt_le_dec q 0 then "-" else "")
    ++ Z_to_string (n / 100) ++ "." ++ two_digits (n mod 100).

(** [sum(values)] starting from 0, left to right. *)
Definition Qsum (l : list Q) : Q := fold_left Qplus l 0.

End Num.

(** ** Dictionaries in insertion order *)

Definition dict (V : Type) : Type := list (string * V).

Fixpoint dict_get {V} (d : dict V) (k : string) : option V :=
  match d with
  | [] => None
  | (k', v) :: t => if String.eqb k k' then Some v else dict_get t k
  end.

(** [d[k] = v]: an existing key keeps its place, a new one goes last. *)
Fixpoint dict_set {V} (d : dict V) (k : string) (v : V) : dict V :=
  match d with
  | [] => [(k, v)]
  | (k', v') :: t =>
      if String.eqb k k' then (k, v) :: t else (k', v') :: dict_set t k v
  end.

(** ** Category mapping and [compute_category_emissions] *)

Module Emissions.

Definition CATEGORY_MAP : dict (list string) :=
  [ ("Energy",
      [ "electricity_kwh"; "natural_gas_m3"; "hot_water_liter";
        "cold_water_liter"; "district_heating_kwh"; "propane_liter";
        "fuel_oil_liter" ]);
    ("Transport",
      [ "petrol_liter"; "diesel_liter"; "bus_km"; "train_km";
        "bicycle_km"; "flight_short_km"; "flight_long_km" ]);
    ("Meals",
      [ "meat_kg"; "chicken_kg"; "eggs_kg"; "dairy_kg"; "vegetarian_kg";
        "vegan_kg" ]) ].

Definition ALL_KEYS : list string := flat_map snd CATEGORY_MAP.

(** The values an activity dictionary holds: a number or [None]. *)
Inductive pyval : Type :=
| PyNone
| PyFloat (q : Q).

Definition truthy (v : pyval) : bool :=
  match v with
  | PyNone => false
  | PyFloat q => negb (Qeq_bool q 0)
  end.

Definition py_or (a b : pyval) : pyval := if truthy a then a else b.

(** [float(v)]; [float(None)] raises [TypeError]. *)
Definition float (v : pyval) : option Q :=
  match v with
  | PyNone => None
  | PyFloat q => Some q
  end.

Section WithFactors.

(** [CO2_FACTORS] is imported from [co2_engine], which is not part of
    this file: the table is a parameter. *)
Variable CO2_FACTORS : gmap string Q.

(** [float(activity_data.get(k, 0) or 0)] *)
Definition amount (activity_data : gmap string pyval) (k : string)
  : option Q :=
  float (py_or (default (PyFloat 0) (activity_data !! k)) (PyFloat 0)).

(** One turn of the inner loop [for k in keys]. *)
Definition subtotal_step (activity_data : gmap string pyval)
    (acc : option Q) (k : string) : option Q :=
  subtotal ← acc;
  amt ← amount activity_data k;
  match CO2_FACTORS !! k with
  | Some factor => Some (subtotal + amt * factor)
  | None => Some subtotal
  end.

Definition category_subtotal (activity_data : gmap string pyval)
    (keys : list string) : option Q :=
  fold_left (subtotal_step activity_data) keys (Some 0).

(** One turn of the outer loop [for cat, keys in CATEGORY_MAP.items()]. *)
Definition category_step (activity_data : gmap string pyval)
    (acc : option (dict Q)) (entry : string * list string)
  : option (dict Q) :=
  result ← acc;
  subtotal ← category_subtotal activity_data (snd entry);
  Some (dict_set result (fst entry) (Num.round2 subtotal)).

Definition compute_category_emissions (activity_data : gmap string pyval)
  : option (dict Q) :=
  fold_left (category_step activity_data) CATEGORY_MAP (Some []).

(** The result as specified: per category, the sum over
    the keys that have a factor of amount times factor, rounded to two
    decimals; a missing or [None] entry counts as zero. *)
Definition spec_amount (activity_data : gmap string pyval) (k : string)
  : Q :=
  match activity_data !! k with
  | Some (PyFloat q) => q
  | Some PyNone | None => 0
  end.

Definition spec_factor_terms (activity_data : gmap string pyval)
    (keys : list string) : list Q :=
  omap (fun k => match CO2_FACTORS !! k with
                 | Some factor => Some (spec_amount activity_data k * factor)
                 | None => None
                 end) keys.

Definition spec_category_total (activity_data : gmap string pyval)
    (keys : list string) : Q :=
  Num.round2 (fold_right Qplus 0 (spec_factor_terms activity_data keys)).

Definition spec_category_emissions (activity_data : gmap string pyval)
  : dict Q :=
  map (fun entry => (fst entry, spec_category_total activity_data (snd entry)))
      CATEGORY_MAP.

End WithFactors.

End Emissions.

(** ** History dates and [compute_streak] *)

Module Streak.

(** Of the history frame only the [date] column is read: a frame is the
    list of its rows' dates, and [df.empty] is the empty list. *)
Definition DataFrame : Type := list Z.

(** The [while current in dayset] loop; [None] when the fuel runs out. *)
Fixpoint streak_loop (fuel : nat) (dayset : gset Z) (streak : nat)
    (current : Z) : option nat :=
  match fuel with
  | O => None
  | S fuel' =>
      if decide (current ∈ dayset)
      then streak_loop fuel' dayset (S streak) (current - 1)%Z
      else Some streak
  end.

(** The logged days up to [current]: what the loop still has to visit. *)
Definition upto (dayset : gset Z) (current : Z) : gset Z :=
  filter (fun d => (d <= current)%Z) dayset.

Definition compute_streak (fuel : nat) (df : DataFrame) (date_val : Z)
  : option nat :=
  match df with
  | [] => Some O
  | _ => streak_loop fuel (list_to_set df) 0 date_val
  end.

End Streak.

(** ** The report builder [build_eco_tips_pdf] *)

Module Pdf.

Definition bytes : Type := string.
Definition Image : Type := bytes.
Definition Color : Type := Z.

(** ReportLab's units and page sizes ([reportlab.lib.units],
    [reportlab.lib.pagesizes]). *)
Definition inch : Q := 72.
Definition cm : Q := inch / 2.54.
Definition mm : Q := cm * 0.1.
Definition A4 : Q * Q := (210 * mm, 297 * mm).
Definition landscape (pagesize : Q * Q) : Q * Q :=
  let (a, b) := pagesize in
  if Qlt_le_dec a b then (b, a) else (a, b).

(** What the canvas is asked to do. *)
Inductive op : Type :=
| SetTitle (title : string)
| SetFont (name : string) (size : Q)
| SetFillColor (col : Color)
| SetFillColorRGB (r g b : Q)
| DrawString (x y : Q) (text : string)
| DrawRightString (x y : Q) (text : string)
| DrawCentredString (x y : Q) (text : string)
| DrawImage (img : Image) (x y w h : Q)
| RoundRect (x y w h radius : Q)
| ShowPage
| Save.

(** The state of one build: the canvas [c] and the cursor [y]. *)
Record state : Type := State { canvas : list op; cursor : Q }.

Inductive outcome (A : Type) : Type :=
| Ret (a : A)
| Raise (e : string).
Arguments Ret {A} a.
Arguments Raise {A} e.

Definition M (A : Type) : Type := state -> state * outcome A.

#[global] Instance M_ret : MRet M := fun A a st => (st, Ret a).

#[global] Instance M_bind : MBind M := fun A B k m st =>
  match m st with
  | (st', Ret a) => k a st'
  | (st', Raise e) => (st', Raise e)
  end.

Definition raise {A} (e : string) : M A := fun st => (st, Raise e).

(** [try: body  except Exception: handler] *)
Definition try_except {A} (body handler : M A) : M A := fun st =>
  match body st with
  | (st', Ret a) => (st', Ret a)
  | (st', Raise _) => handler st'
  end.

Definition pass : M unit := mret tt.

Definition get_y : M Q := fun st => (st, Ret (cursor st)).
Definition set_y (v : Q) : M unit := fun st =>
  (State (canvas st) v, Ret tt).
(** [y -= h] *)
Definition sub_y (h : Q) : M unit := fun st =>
  (State (canvas st) (cursor st - h), Ret tt).

(** [for x in l: body x] *)
Fixpoint for_each {A} (l : list A) (body : A -> M unit) : M unit :=
  match l with
  | [] => mret tt
  | x :: t => body x;; for_each t body
  end.

(** A loop that carries local variables from one turn to the next. *)
Fixpoint for_fold {A S} (l : list A) (body : S -> A -> M S) (s : S) : M S :=
  match l with
  | [] => mret s
  | x :: t => s' ← body s x; for_fold t body s'
  end.

(** Truth value of an optional string, [if s:]. *)
Definition truthy (s : option string) : bool :=
  match s with
  | Some v => negb (String.eqb v "")
  | None => false
  end.

(** [bool(d)] for an optional dictionary. *)
Definition nonempty {V} (d : option (dict V)) : bool :=
  match d with
  | Some (_ :: _) => true
  | _ => false
  end.

(** [sorted(d.items(), key=lambda x: x[1], reverse=True)]: stable, so
    entries of equal value keep their order. *)
Fixpoint insert_desc (e : string * Q) (l : list (string * Q))
  : list (string * Q) :=
  match l with
  | [] => [e]
  | h :: t =>
      if Qlt_le_dec (snd e) (snd h) then h :: insert_desc e t
      else e :: h :: t
  end.

Definition sorted_desc (items : list (string * Q)) : list (string * Q) :=
  fold_right insert_desc [] items.

(** [label.replace('_', ' ').title()] on ASCII labels. *)
Definition is_lower (a : ascii) : bool :=
  let n := nat_of_ascii a in (97 <=? n)%nat && (n <=? 122)%nat.
Definition is_upper (a : ascii) : bool :=
  let n := nat_of_ascii a in (65 <=? n)%nat && (n <=? 90)%nat.
Definition to_upper (a : ascii) : ascii :=
  if is_lower a then ascii_of_nat (nat_of_ascii a - 32) else a.
Definition to_lower (a : ascii) : ascii :=
  if is_upper a then ascii_of_nat (nat_of_ascii a + 32) else a.

Fixpoint replace_underscore (s : string) : string :=
  match s with
  | EmptyString => EmptyString
  | String a t =>
      String (if Ascii.eqb a "_" then " "%char else a) (replace_underscore t)
  end.

Fixpoint title_from (in_word : bool) (s : string) : string :=
  match s with
  | EmptyString => EmptyString
  | String a t =>
      let cased := is_lower a || is_upper a in
      String (if in_word then to_lower a else to_upper a) (title_from cased t)
  end.

Definition title (s : string) : string := title_from false s.

(** The arguments of [build_eco_tips_pdf]. *)
Record args : Type := Args {
  summary_text : string;
  tip_text : string;
  emissions : Q;
  date_str : string;
  source_label : string;
  per_activity : option (dict Q);
  per_category : option (dict Q);
  kpis : option (dict string);
  logo_bytes : option bytes;
  title_text : option string;
  primary_color : option string;
  include_pie : bool;
  include_sparklines : bool;
  spark_data : option (dict (list Q));
  footer_text : option string;
  margins_cm : option (dict Q);
  text_hex : option string;
  chart_bg_hex : option string
}.

(** A finished document: every operation the canvas performed. *)
Definition document : Type := list op.

(** [c.getPageNumber()] *)
Definition page_number (c : list op) : nat :=
  S (length (List.filter
               (fun o => match o with ShowPage => true | _ => false end) c)).

Section Build.

(** What the builder takes from its surroundings.
    - [surface c o]: the exception the canvas raises when asked to do [o]
      after [c], if any;
    - [reportlab_import]: the exception of the lazy ReportLab import;
    - [mpl_ok]: whether matplotlib could be imported;
    - [HexColor], [ImageReader]: [None] when they raise;
    - [simpleSplit text font size width]: ReportLab's line breaking;
    - [fmt_emissions]: imported from [utils];
    - [plot_series], [plot_pie]: the matplotlib figure saved as PNG, [None]
      when any matplotlib call of the block raises. *)
Variable surface : list op -> op -> option string.
Variable reportlab_import : option string.
Variable mpl_ok : bool.
Variable HexColor : string -> option Color.
Variable ImageReader : bytes -> option Image.
Variable simpleSplit : string -> string -> Q -> Q -> list string.
Variable fmt_emissions : Q -> string.
Variable plot_series :
  option string -> option string -> option string -> string -> list Q ->
  option Image.
Variable plot_pie : option string -> option string -> dict Q -> option Image.

Variable a : args.

(** A canvas method call. *)
Definition emit (o : op) : M unit := fun st =>
  match surface (canvas st) o with
  | Some e => (st, Raise e)
  | None => (State (canvas st ++ [o]) (cursor st), Ret tt)
  end.

Definition getPageNumber : M nat := fun st =>
  (st, Ret (page_number (canvas st))).

Definition hex_color (s : string) : M Color :=
  match HexColor s with
  | Some col => mret col
  | None => raise "ValueError: invalid hex color"
  end.

Definition image_reader (b : bytes) : M Image :=
  match ImageReader b with
  | Some img => mret img
  | None => raise "OSError: cannot identify image file"
  end.

Definition page_size : Q * Q := landscape A4.
Definition width : Q := fst page_size.
Definition height : Q := snd page_size.

Definition margin (key : string) (dflt : Q) : Q :=
  match dict_get (default [] (margins_cm a)) key with
  | Some v => v
  | None => dflt
  end.

Definition side_m : Q := margin "side" 2.0 * cm.
Definition top_m : Q := margin "top" 2.0 * cm.
Definition bottom_m : Q := margin "bottom" 1.8 * cm.
Definition left : Q := side_m.
Definition right : Q := width - side_m.

(** [if text_hex: c.setFillColor(HexColor(text_hex))] *)
Definition fill_from (hex : option string) : M unit :=
  match hex with
  | Some s =>
      if truthy hex then col ← hex_color s; emit (SetFillColor col)
      else pass
  | None => pass
  end.

Definition _draw_footer : M unit :=
  match footer_text a with
  | Some footer =>
      if truthy (footer_text a) then
        emit (SetFont "Helvetica" 9);;
        try_except (fill_from (text_hex a)) (emit (SetFillColorRGB 0 0 0));;
        emit (DrawString left (bottom_m - 0.4 * cm) footer);;
        try_except
          (n ← getPageNumber;
           emit (DrawRightString right (bottom_m - 0.4 * cm)
                   ("Page " ++ Num.Z_to_string (Z.of_nat n))))
          pass
      else pass
  | None => pass
  end.

Definition _show_page : M unit :=
  _draw_footer;;
  emit ShowPage;;
  try_except (fill_from (text_hex a)) (emit (SetFillColorRGB 0 0 0)).

(** [if y < bottom_m + h: _show_page(); y = height - top_m] *)
Definition break_if_below (h : Q) : M unit :=
  y ← get_y;
  if Qlt_le_dec y (bottom_m + h) then _show_page;; set_y (height - top_m)
  else pass.

Definition draw_title : string :=
  if truthy (title_text a) then default "" (title_text a)
  else "Sustainability Tracker — Eco Tips Summary".

Definition badge (y : Q) : M unit :=
  fill_from (primary_color a);;
  emit (RoundRect left (y - 0.5 * cm) (2.2 * cm) (2.2 * cm) (0.3 * cm));;
  emit (SetFillColorRGB 1 1 1);;
  emit (SetFont "Helvetica-Bold" 14);;
  emit (DrawCentredString (left + 1.1 * cm) (y + 0.5 * cm) "ST").

Definition title_section : M unit :=
  set_y (height - top_m);;
  emit (SetTitle "Eco Tips Summary");;
  emit (SetFont "Helvetica-Bold" 19);;
  try_except (fill_from (primary_color a)) pass;;
  y ← get_y;
  try_except
    (match logo_bytes a with
     | Some b =>
         if truthy (logo_bytes a) then
           img ← image_reader b;
           emit (DrawImage img left (y - 0.5 * cm) (2.2 * cm) (2.2 * cm));;
           emit (DrawString (left + 2.5 * cm) y draw_title)
         else
           try_except (badge y) pass;;
           emit (SetFillColorRGB 0 0 0);;
           emit (DrawString (left + 2.5 * cm) y draw_title)
     | None =>
         try_except (badge y) pass;;
         emit (SetFillColorRGB 0 0 0);;
         emit (DrawString (left + 2.5 * cm) y draw_title)
     end)
    (emit (DrawString left y draw_title));;
  try_except
    (if truthy (text_hex a) then fill_from (text_hex a)
     else emit (SetFillColorRGB 0 0 0))
    (emit (SetFillColorRGB 0 0 0));;
  sub_y (0.4 * cm).

Definition meta_line : M unit :=
  emit (SetFont "Helvetica" 11);;
  y ← get_y;
  emit (DrawString left y
          ("Date: " ++ date_str a ++ "    Total: "
             ++ fmt_emissions (emissions a)
             ++ "    AI source: " ++ source_label a));;
  sub_y (0.8 * cm).

Definition kpi_labels : list string :=
  ["today_total"; "yesterday_total"; "delta_pct"; "streak_days"].

Definition kpi_section : M unit :=
  match kpis a with
  | Some k =>
      emit (SetFont "Helvetica-Bold" 12);;
      y ← get_y;
      emit (DrawString left y "Key metrics:");;
      sub_y (0.6 * cm);;
      emit (SetFont "Helvetica" 10.5);;
      for_each kpi_labels (fun label =>
        match dict_get k label with
        | Some v =>
            y ← get_y;
            emit (DrawString left y
                    ("- " ++ title (replace_underscore label) ++ ": " ++ v));;
            sub_y (0.48 * cm);;
            break_if_below (2 * cm)
        | None => pass
        end)
  | None => pass
  end.

(** The local variables of the sparkline grid loop. *)
Record grid : Type := Grid { x0 : Q; y0 : Q; i : nat; y_img : Q }.

Definition cols : nat := 3.
Definition cell_w : Q := 8 * cm.
Definition cell_h : Q := 3 * cm.

Definition of_nat (n : nat) : Q := inject_Z (Z.of_nat n).

Definition spark_cell (g : grid) (entry : string * list Q) : M grid :=
  match plot_series (chart_bg_hex a) (primary_color a) (text_hex a)
          (fst entry) (snd entry) with
  | None => raise "matplotlib error"
  | Some img_b =>
      let col := (i g mod cols)%nat in
      let row := (i g / cols)%nat in
      let x := x0 g + of_nat col * (cell_w + 0.5 * cm) in
      let y_cell := y0 g - of_nat row * (cell_h + 0.5 * cm) in
      if Qlt_le_dec (y_cell - cell_h) (bottom_m + 1.5 * cm) then
        _show_page;;
        let y_top := height - top_m - 1 * cm in
        emit (DrawImage img_b left (y_top - cell_h) cell_w cell_h);;
        mret (Grid left y_top (S (i g)) y_top)
      else
        emit (DrawImage img_b x (y_cell - cell_h) cell_w cell_h);;
        mret (Grid (x0 g) (y0 g) (S (i g)) y_cell)
  end.

Definition sparkline_section : M unit :=
  if include_sparklines a && mpl_ok && nonempty (spark_data a) then
    try_except
      (emit (SetFont "Helvetica-Bold" 12);;
       y ← get_y;
       emit (DrawString left y "7-day category trends:");;
       sub_y (0.6 * cm);;
       y ← get_y;
       g ← for_fold (default [] (spark_data a)) spark_cell (Grid left y 0 y);
       set_y (y_img g - cell_h - 0.8 * cm))
      pass
  else pass.

(** One wrapped line of the summary or of the tip. *)
Definition paragraph_line (line : string) : M unit :=
  y ← get_y;
  emit (DrawString left y line);;
  sub_y (0.5 * cm);;
  break_if_below (2 * cm).

Definition summary_block : M unit :=
  emit (SetFont "Helvetica-Bold" 12.5);;
  y ← get_y;
  emit (DrawString left y "Today's Summary:");;
  sub_y (0.6 * cm);;
  emit (SetFont "Helvetica" 11);;
  for_each (simpleSplit (summary_text a) "Helvetica" 11 (width - 4 * cm))
    paragraph_line.

Definition tip_block : M unit :=
  sub_y (0.2 * cm);;
  emit (SetFont "Helvetica-Bold" 12.5);;
  y ← get_y;
  emit (DrawString left y "Personalized Tip:");;
  sub_y (0.6 * cm);;
  emit (SetFont "Helvetica" 11);;
  for_each (simpleSplit (tip_text a) "Helvetica" 11 (width - 4 * cm))
    paragraph_line.

(** [f"{k}: {float(v):.2f}"] *)
Definition key_value (e : string * Q) : string :=
  fst e ++ ": " ++ Num.format_2f (snd e).

(** The per-category loop: it leaves the loop ([break]) once the cursor
    is below [bottom_m + 6*cm]. *)
Fixpoint category_lines (items : list (string * Q)) : M unit :=
  match items with
  | [] => pass
  | e :: rest =>
      y ← get_y;
      emit (DrawString left y (key_value e));;
      sub_y (0.45 * cm);;
      y' ← get_y;
      if Qlt_le_dec y' (bottom_m + 6 * cm) then pass
      else category_lines rest
  end.

Definition img_width : Q := 10 * cm.
Definition img_height : Q := 7 * cm.

Definition pie_chart (pc : dict Q) : M unit :=
  if include_pie a && mpl_ok then
    try_except
      (if Qlt_le_dec 0 (Num.Qsum (map snd pc)) then
         match plot_pie (chart_bg_hex a) (text_hex a) pc with
         | Some img_buf =>
             y ← get_y;
             emit (DrawImage img_buf (right - img_width) (y + 0.5 * cm)
                     img_width img_height);;
             sub_y (img_height + 0.5 * cm)
         | None => raise "matplotlib error"
         end
       else pass)
      pass
  else pass.

Definition category_section : M unit :=
  if nonempty (per_category a) then
    let pc := default [] (per_category a) in
    sub_y (0.2 * cm);;
    emit (SetFont "Helvetica-Bold" 12);;
    y ← get_y;
    emit (DrawString left y "Per-category (kg CO₂):");;
    sub_y (0.6 * cm);;
    emit (SetFont "Helvetica" 11);;
    category_lines (sorted_desc pc);;
    pie_chart pc
  else pass.

(** One row of the per-activity table. *)
Definition activity_line (e : string * Q) : M unit :=
  y ← get_y;
  emit (DrawString left y (key_value e));;
  sub_y (0.45 * cm);;
  break_if_below (2 * cm).

Definition activity_section : M unit :=
  if nonempty (per_activity a) then
    sub_y (0.2 * cm);;
    emit (SetFont "Helvetica-Bold" 12);;
    y ← get_y;
    emit (DrawString left y "Per-activity emissions (kg CO₂):");;
    sub_y (0.6 * cm);;
    emit (SetFont "Helvetica" 11);;
    for_each (sorted_desc (default [] (per_activity a))) activity_line
  else pass.

(** The sections between the title and the per-activity table. *)
Definition middle_sections : M unit :=
  meta_line;;
  kpi_section;;
  sparkline_section;;
  summary_block;;
  tip_block;;
  category_section.

(** The sections that precede the per-activity table. *)
Definition leading_sections : M unit :=
  try_except (fill_from (text_hex a)) pass;;
  title_section;;
  middle_sections.

(** [_show_page(); c.save()] *)
Definition finish : M unit :=
  _show_page;;
  emit Save.

Definition body : M unit :=
  leading_sections;;
  activity_section;;
  finish.

(** A fresh canvas; [y] is assigned before it is read. *)
Definition fresh : state := State [] 0.

Definition build_eco_tips_pdf : option document * option string :=
  match reportlab_import with
  | Some e =>
      (None,
       Some ("ReportLab not available: " ++ e
               ++ ". Install with: pip install reportlab"))
  | None =>
      match body fresh with
      | (st, Ret _) => (Some (canvas st), None)
      | (_, Raise e) => (None, Some ("Failed to build PDF: " ++ e))
      end
  end.

End Build.

(** The same arguments with another per-activity dictionary. *)
Definition with_activity (a : args) (table : option (dict Q)) : args :=
  Args (summary_text a) (tip_text a) (emissions a) (date_str a)
       (source_label a) table (per_category a) (kpis a) (logo_bytes a)
       (title_text a) (primary_color a) (include_pie a)
       (include_sparklines a) (spark_data a) (footer_text a) (margins_cm a)
       (text_hex a) (chart_bg_hex a).

End Pdf.

(** ** Observing runs and documents *)

Module Observe.
Import Pdf.

(** A drawing surface on which no call raises. *)
Definition never_raises (surface : list op -> op -> option string) : Prop :=
  forall c o, surface c o = None.

(** [m] only adds operations to the canvas, all of them satisfying [P]. *)
Definition appends {A} (P : op -> Prop) (m : M A) : Prop :=
  forall st, exists ops,
    canvas (fst (m st)) = (canvas st ++ ops)%list /\ Forall P ops.

(** Whatever the state, after [m] the canvas holds an operation
    satisfying [P]. *)
Definition draws {A} (P : op -> Prop) (m : M A) : Prop :=
  forall st, exists o, P o /\ In o (canvas (fst (m st))).

(** [m] returns normally from every state. *)
Definition returns {A} (m : M A) : Prop :=
  forall st, exists x, snd (m st) = Ret x.

(** The texts drawn by [drawString], in order. *)
Fixpoint drawn_strings (ops : list op) : list string :=
  match ops with
  | [] => []
  | DrawString _ _ text :: t => text :: drawn_strings t
  | _ :: t => drawn_strings t
  end.

Definition is_fill (o : op) : bool :=
  match o with
  | SetFillColor _ | SetFillColorRGB _ _ _ => true
  | _ => false
  end.

Definition is_image (o : op) : bool :=
  match o with
  | DrawImage _ _ _ _ _ => true
  | _ => false
  end.

Definition is_show_page (o : op) : bool :=
  match o with
  | ShowPage => true
  | _ => false
  end.

(** The document ends its last page and is saved: after the last
    [showPage] only the fill colour is set again, then [save]. *)
Definition page_terminated (doc : document) : Prop :=
  exists pre tail,
    doc = (pre ++ ShowPage :: tail ++ [Save])%list
    /\ Forall (fun o => is_fill o = true) tail.

(** The operations every section draws with: anything but a parsed fill
    colour, a non-black fill, or a part of the fallback badge. *)
Definition plain (o : op) : Prop :=
  match o with
  | SetFillColor _ | RoundRect _ _ _ _ _ | DrawCentredString _ _ _ => False
  | SetFillColorRGB r g b => r = 0 /\ g = 0 /\ b = 0
  | _ => True
  end.


(** The operations of the fallback badge: the rounded rectangle and the
    centred initials. *)
Definition is_badge (o : op) : bool :=
  match o with
  | RoundRect _ _ _ _ _ | DrawCentredString _ _ _ => true
  | _ => false
  end.

Definition no_badge (o : op) : Prop := is_badge o = false.

(** The title drawn at the left margin. *)
Definition title_at_left (a : args) (o : op) : Prop :=
  exists y, o = DrawString (left a) y (draw_title a).

(** [m] leaves the cursor where it was. *)
Definition keeps_cursor {A} (m : M A) : Prop :=
  forall st, cursor (fst (m st)) = cursor st.

(** The number of page breaks among some operations. *)
Definition pages_broken (ops : list op) : nat :=
  length (List.filter is_show_page ops).

(** The line loop shared by the KPI block, the summary, the tip and the
    per-activity table: draw at the cursor, lower the cursor by [step],
    then break the page if the cursor is below [bottom_m + 2*cm]. *)
Definition paged_line (surface : list op -> op -> option string)
    (HexColor : string -> option Color) (a : args) (step : Q)
    (text : string) : M unit :=
  y ← get_y;
  emit surface (DrawString (left a) y text);;
  sub_y step;;
  break_if_below surface HexColor a (2 * cm).

(** Where such a loop leaves the cursor after a line drawn at [y]. *)
Definition next_y (top mark step y : Q) : Q :=
  if Qlt_le_dec (y - step) mark then top else y - step.

(** The positions of its next [n] lines, the cursor after them, and the
    number of page breaks among them. *)
Fixpoint paged_positions (top mark step y : Q) (n : nat) : list Q :=
  match n with
  | O => []
  | S m => y :: paged_positions top mark step (next_y top mark step y) m
  end.

Fixpoint paged_cursor (top mark step y : Q) (n : nat) : Q :=
  match n with
  | O => y
  | S m => paged_cursor top mark step (next_y top mark step y) m
  end.

Fixpoint page_breaks (top mark step y : Q) (n : nat) : nat :=
  match n with
  | O => O
  | S m =>
      ((if Qlt_le_dec (y - step) mark then 1 else 0)
       + page_breaks top mark step (next_y top mark step y) m)%nat
  end.

(** Lines drawn one under the other from [y], [step] apart. *)
Fixpoint rows_from (x y step : Q) (texts : list string) : list op :=
  match texts with
  | [] => []
  | t :: rest => DrawString x y t :: rows_from x (y - step) step rest
  end.

(** [y] lowered [n] times by [step]. *)
Fixpoint lowered (y step : Q) (n : nat) : Q :=
  match n with
  | O => y
  | S m => lowered (y - step) step m
  end.

(** Descending by value. *)
Definition desc (e1 e2 : string * Q) : Prop := snd e2 <= snd e1.

(** The texts drawn below the height [limit]. *)
Definition drawn_below (limit : Q) (ops : list op) : list string :=
  flat_map (fun o => match o with
                     | DrawString _ y t =>
                         if Qlt_le_dec y limit then [t] else []
                     | _ => []
                     end) ops.

(** What follows the first page break. *)
Fixpoint after_first_break (ops : list op) : list op :=
  match ops with
  | [] => []
  | ShowPage :: rest => rest
  | _ :: rest => after_first_break rest
  end.

(** Whether the text [t] is drawn. *)
Definition draws_text (t : string) (ops : list op) : bool :=
  existsb (String.eqb t) (drawn_strings ops).

End Observe.

(** ** Sample surroundings and reports, for running the builder *)

Module Sample.
Import Pdf Observe.

(** A canvas that never raises. *)
Definition reliable (c : list op) (o : op) : option string := None.

(** A colour parser that knows one colour and rejects the rest. *)
Definition HexColor (s : string) : option Color :=
  if String.eqb s "#2563eb" then Some 2450411%Z else None.

(** An image decoder that accepts only data starting with the PNG mark. *)
Definition ImageReader (b : bytes) : option Image :=
  if String.prefix "PNG" b then Some b else None.

(** Line breaking for texts whose lines all fit the width: [simpleSplit]
    breaks at the newlines and drops empty lines. *)
Definition newline : ascii := ascii_of_nat 10.

Fixpoint lines_from (cur : string) (s : string) : list string :=
  match s with
  | EmptyString => if String.eqb cur "" then [] else [cur]
  | String c t =>
      if Ascii.eqb c newline then
        (if String.eqb cur "" then lines_from "" t
         else cur :: lines_from "" t)
      else lines_from (cur ++ String c EmptyString) t
  end.

Definition simpleSplit (text font : string) (size max_width : Q)
  : list string := lines_from "" text.

Definition fmt_emissions (q : Q) : string := Num.format_2f q ++ " kg CO2".

Definition plot_series (bg fg txt : option string) (cat : string)
    (series : list Q) : option Image := Some ("PNG sparkline " ++ cat).

Definition plot_pie (bg txt : option string) (pc : dict Q) : option Image :=
  Some "PNG pie".

(** ["\n".join(["w"] * n)] *)
Fixpoint repeat_word (n : nat) : string :=
  match n with
  | O => ""
  | S O => "w"
  | S m => String "w" (String newline (repeat_word m))
  end.

Definition categories : dict Q :=
  [("Energy", 12.5); ("Transport", 3.0); ("Meals", 1.5)].

(** The report of the spec's scenario: three categories, nothing else. *)
Definition scenario : args :=
  Args "All good" "Cycle more" 17 "2025-01-01" "fallback"
       None (Some categories) None None None None
       true true None None None None None.

(** The same with one activity, a one-line KPI block and a 23-line
    summary; no charts are asked for. *)
Definition long_summary : args :=
  Args (repeat_word 23) "" 17 "2025-01-01" "fallback"
       (Some [("bus_km", 2.0)]) (Some categories)
       (Some [("today_total", "17.00 kg")]) None None None
       false false None None None None None.

(** Thirty activities of decreasing emissions. *)
Definition thirty_rows : dict Q :=
  map (fun n => ("activity" ++ Num.Z_to_string (Z.of_nat n),
                 inject_Z (Z.of_nat (40 - n))))
      (seq 1 30).

Definition long_table : args :=
  Args (repeat_word 2) "Cycle more" 17 "2025-01-01" "fallback"
       (Some thirty_rows) None None None None None
       true true None None None None None.

(** A logo that is not an image, and colours that are not colours. *)
Definition broken_logo : args :=
  Args "All good" "Cycle more" 17 "2025-01-01" "fallback"
       None None None (Some "not an image") None None
       true true None None None None None.

Definition broken_colors : args :=
  Args "All good" "Cycle more" 17 "2025-01-01" "fallback"
       (Some [("bus_km", 2.0)]) (Some categories) None None None
       (Some "teal") true true None (Some "footer") None
       (Some "#12") (Some "nope").

(** Twelve lines of summary, then the categories and one activity. *)
Definition pie_low : args :=
  Args (repeat_word 12) "" 17 "2025-01-01" "fallback"
       (Some [("bus_km", 2.0)]) (Some categories) None None None None
       true true None None None None None.

Definition build (mpl_ok : bool) (a : args) : option document * option string :=
  build_eco_tips_pdf reliable None mpl_ok HexColor ImageReader simpleSplit
    fmt_emissions plot_series plot_pie a.

End Sample.

(** ** Validation helpers *)

Module Validation.

(** A Python float: a finite number, [nan], [inf] or [-inf]. *)
Inductive pyfloat : Type :=
| Finite (q : Q)
| NaN
| Inf (negative : bool).

(** [f > 0] and [f < 0]; both are false for [nan]. *)
Definition gt0 (f : pyfloat) : bool :=
  match f with
  | Finite q => if Qlt_le_dec 0 q then true else false
  | NaN => false
  | Inf negative => negb negative
  end.

Definition lt0 (f : pyfloat) : bool :=
  match f with
  | Finite q => if Qlt_le_dec q 0 then true else false
  | NaN => false
  | Inf negative => negative
  end.

(** What a form field may hold: [None], a number, or a string. *)
Inductive value : Type :=
| VNone
| VFloat (f : pyfloat)
| VStr (s : string).

Section WithParser.

(** [float(s)] for a string; [None] when it raises [ValueError]. *)
Variable parse_float : string -> option pyfloat.

(** [try: return float(v)  except Exception: return None] *)
Definition _coerce_float (v : value) : option pyfloat :=
  match v with
  | VNone => None
  | VFloat f => Some f
  | VStr s => parse_float s
  end.

(** [for v in values: ... return True]; [return False] after the loop. *)
Fixpoint any_positive (values : list value) : bool :=
  match values with
  | [] => false
  | v :: rest =>
      match _coerce_float v with
      | Some fv => if gt0 fv then true else any_positive rest
      | None => any_positive rest
      end
  end.

Definition has_meaningful_input (user_data : dict value) : bool :=
  any_positive (map snd user_data).

(** One turn of the loop of [find_invalid_fields]. *)
Definition invalid_step (bad : list string) (item : string * value)
  : list string :=
  match _coerce_float (snd item) with
  | None => bad ++ [fst item]
  | Some fv => if lt0 fv then bad ++ [fst item] else bad
  end.

Definition find_invalid_fields (user_data : dict value) : list string :=
  fold_left invalid_step user_data [].

Definition should_generate_tip (user_data : dict value) : bool :=
  match find_invalid_fields user_data with
  | [] => has_meaningful_input user_data
  | _ :: _ => false
  end.

(** A value [find_invalid_fields] reports: not a number, or negative. *)
Definition invalid (v : value) : bool :=
  match _coerce_float v with
  | None => true
  | Some fv => lt0 fv
  end.

(** A value that counts as input: a number above zero. *)
Definition positive (v : value) : bool :=
  match _coerce_float v with
  | None => false
  | Some fv => gt0 fv
  end.

End WithParser.

End Validation.

(** ** The history file: [load_history], [save_entry],
    [get_yesterday_total] *)

Module History.

(** A row of [history.csv]: the date, one amount per key of [ALL_KEYS],
    the total. *)
Record row : Type := Row { date : Z; amounts : dict Q; total_kg : Q }.

Definition DataFrame : Type := list row.

(** The file: absent, not readable as CSV, or holding a frame. *)
Inductive file : Type :=
| Missing
| Unreadable
| Stored (df : DataFrame).

Definition load_history (f : file) : DataFrame :=
  match f with
  | Stored df => df
  | Missing | Unreadable => []
  end.

(** [{k: float(activity_data.get(k, 0) or 0) for k in ALL_KEYS}] *)
Fixpoint row_amounts (activity_data : gmap string Emissions.pyval)
    (keys : list string) : option (dict Q) :=
  match keys with
  | [] => Some []
  | k :: rest =>
      amt ← Emissions.amount activity_data k;
      tail ← row_amounts activity_data rest;
      Some ((k, amt) :: tail)
  end.

Definition dated (d : Z) (r : row) : bool := (date r =? d)%Z.
Definition other_day (d : Z) (r : row) : bool := negb (dated d r).

(** The frame [save_entry] sorts and writes: [[row]] for an empty frame,
    else the frame with the rows of that date overwritten, or with the
    row appended when the date is new. *)
Definition upserted (df : DataFrame) (d : Z) (r : row) : DataFrame :=
  match df with
  | [] => [r]
  | _ :: _ =>
      if existsb (dated d) df
      then map (fun x => if dated d x then r else x) df
      else (df ++ [r])%list
  end.

Section WithSort.

(** [df.sort_values("date")]: pandas' sort, not stable by default. *)
Variable sort_values : DataFrame -> DataFrame.

(** [save_entry]: the file left behind; [None] when building the row
    raises, and then nothing is written. *)
Definition save_entry (date_val : Z)
    (activity_data : gmap string Emissions.pyval) (total : Q) (f : file)
  : option file :=
  let df := load_history f in
  cells ← row_amounts activity_data Emissions.ALL_KEYS;
  let r := Row date_val cells total in
  Some (Stored (sort_values (upserted df date_val r))).

End WithSort.

Definition get_yesterday_total (df : DataFrame) (date_val : Z) : Q :=
  match df with
  | [] => 0
  | _ :: _ =>
      let yesterday := (date_val - 1)%Z in
      match List.filter (dated yesterday) df with
      | r :: _ => total_kg r
      | [] => 0
      end
  end.

(** The dates of a frame, as [compute_streak] reads them. *)
Definition dates (df : DataFrame) : Streak.DataFrame := map date df.

End History.

(** ** Badges *)

Module Badges.

(** [df.tail(7)] *)
Definition tail7 {A} (l : list A) : list A := skipn (length l - 7) l.

(** [Series.mean()] of a non-empty column. *)
Definition mean (l : list Q) : Q :=
  Num.Qsum l / inject_Z (Z.of_nat (length l)).

Definition consistency : string := "üìÖ Consistency: Entries logged!".
Definition low_impact : string := "üåø Low Impact Day (< 20 kg)".
Definition streak3 : string := "üî• 3-Day Streak".
Definition streak7 : string := "üèÜ 7-Day Streak".
Definition better10 : string := "üìà 10% Better than 7-day avg".

Definition award_badges (today_total : Q) (streak : Z)
    (df : History.DataFrame) : list string :=
  let badges := [] in
  let badges :=
    match df with
    | [] => badges
    | _ :: _ => (badges ++ [consistency])%list
    end in
  let badges :=
    if Qlt_le_dec today_total 20 then (badges ++ [low_impact])%list
    else badges in
  let badges :=
    if (3 <=? streak)%Z then (badges ++ [streak3])%list else badges in
  let badges :=
    if (7 <=? streak)%Z then (badges ++ [streak7])%list else badges in
  match df with
  | [] => badges
  | _ :: _ =>
      let recent := tail7 df in
      let avg7 :=
        match recent with
        | [] => 0
        | _ :: _ => mean (map History.total_kg recent)
        end in
      if negb (Qeq_bool avg7 0) then
        if Qlt_le_dec today_total (0.9 * avg7)
        then (badges ++ [better10])%list
        else badges
      else badges
  end.

(** Whether the last badge is earned: a non-zero 7-day average and a
    total below nine tenths of it. *)
Definition beats_average (today_total : Q) (df : History.DataFrame)
  : bool :=
  match df with
  | [] => false
  | _ :: _ =>
      let avg7 :=
        match tail7 df with
        | [] => 0
        | _ :: _ => mean (map History.total_kg (tail7 df))
        end in
      negb (Qeq_bool avg7 0)
      && (if Qlt_le_dec today_total (0.9 * avg7) then true else false)
  end.

End Badges.

(** ** [dominant_category_icon] *)

Module Icon.





End Icon.

(** ** A sample history *)

Module SampleHistory.
Import History.

(** A sort by date, by insertion. *)
Fixpoint insert_by_date (r : row) (l : DataFrame) : DataFrame :=
  match l with
  | [] => [r]
  | h :: t =>
      if (date r <? date h)%Z then r :: h :: t
      else h :: insert_by_date r t
  end.

Definition sort_values (df : DataFrame) : DataFrame :=
  fold_right insert_by_date [] df.

(** Two logged days, the later one first. *)
Definition two_days : file :=
  Stored [Row 739000 [] 9; Row 738999 [] 12.5].

Definition bus_ride : gmap string Emissions.pyval :=
  {[ "bus_km" := Emissions.PyFloat 12 ]}.

End SampleHistory.

(** ** Page labels *)

Module Pages.
Import Pdf.

(** [f"Page {n}"] *)
Definition page_label (n : nat) : string :=
  "Page " ++ Num.Z_to_string (Z.of_nat n).

Definition is_label (o : op) : bool :=
  match o with
  | DrawRightString _ _ _ => true
  | _ => false
  end.

(** Read from page [n] on, every right-aligned text is the number of the
    page it is drawn on. *)
Fixpoint numbered_from (n : nat) (ops : list op) : Prop :=
  match ops with
  | [] => True
  | ShowPage :: rest => numbered_from (S n) rest
  | DrawRightString _ _ text :: rest =>
      text = page_label n /\ numbered_from n rest
  | _ :: rest => numbered_from n rest
  end.

(** [m] keeps a property of the canvas. *)
Definition preserves {A} (I : list op -> Prop) (m : M A) : Prop :=
  forall st, I (canvas st) -> I (canvas (fst (m st))).

End Pages.

(** ** Joining texts *)

Module Text.

(** [sep.join(l)] *)
Fixpoint join (sep : string) (l : list string) : string :=
  match l with
  | [] => ""
  | [x] => x
  | x :: rest => x ++ sep ++ join sep rest
  end.

End Text.

(** ** Inline warnings: [show_input_warnings] *)

Module Warnings.
Import Validation.






Section WithParser.

Variable parse_float : string -> option pyfloat.


End WithParser.

End Warnings.

(** ** The lines of the KPI block *)

Module Kpi.

(** The labels the block knows, with the headings they are shown under. *)
Definition shown : list (string * string) :=
  [ ("today_total", "Today Total");
    ("yesterday_total", "Yesterday Total");
    ("delta_pct", "Delta Pct");
    ("streak_days", "Streak Days") ].


End Kpi.

(** ** What the header shows *)

Module Header.
Import Pdf.

Definition is_text (o : op) : bool :=
  match o with
  | DrawString _ _ _ => true
  | _ => false
  end.

(** Logo bytes are supplied and decode. *)
Definition logo_drawn (ImageReader : bytes -> option Image) (a : args)
  : bool :=
  match logo_bytes a with
  | Some b =>
      truthy (Some b)
      && match ImageReader b with Some _ => true | None => false end
  | None => false
  end.

(** No logo bytes are supplied, and the primary colour, if one is given,
    parses. *)
Definition badge_drawn (HexColor : string -> option Color) (a : args)
  : bool :=
  negb (truthy (logo_bytes a))
  && match primary_color a with
     | Some p =>
         if truthy (Some p)
         then match HexColor p with Some _ => true | None => false end
         else true
     | None => true
     end.

(** Where the title starts: at the left margin when supplied logo bytes
    do not decode, 2.5 cm to the right of it otherwise. *)
Definition title_x (ImageReader : bytes -> option Image) (a : args) : Q :=
  if truthy (logo_bytes a) && negb (logo_drawn ImageReader a)
  then left a
  else left a + 2.5 * cm.

End Header.

(** ** The summaries: [format_summary], [format_summary_html] *)

Module Summary.
Import Validation.

(** The formats [.0f], [.1f] and [.2f]. *)
Inductive spec : Type := F0 | F1 | F2.

Definition sign (q : Q) : string := if Qlt_le_dec q 0 then "-" else "".

Definition format_0f (q : Q) : string :=
  sign q ++ Num.Z_to_string (Num.round_half_even (Qabs q)).

Definition format_1f (q : Q) : string :=
  let n := Num.round_half_even (Qabs q * 10) in
  sign q ++ Num.Z_to_string (n / 10) ++ "." ++ Num.Z_to_string (n mod 10).

Definition format (f : spec) (x : pyfloat) : string :=
  match x with
  | Finite q =>
      match f with
      | F0 => format_0f q
      | F1 => format_1f q
      | F2 => Num.format_2f q
      end
  | NaN => "nan"
  | Inf negative => if negative then "-inf" else "inf"
  end.

(** [user_data.get(key)] *)
Definition get (user_data : dict value) (key : string) : value :=
  default VNone (dict_get user_data key).

(** [bool(v)] *)
Definition truthy (v : value) : bool :=
  match v with
  | VNone => false
  | VFloat (Finite q) => negb (Qeq_bool q 0)
  | VFloat _ => true
  | VStr s => negb (String.eqb s "")
  end.

(** The [<span>] of one entry. *)
Definition tag (label color : string) : string :=
  "<span style='display:inline-block;margin:2px 6px 2px 0;padding:2px 8px;"
    ++ "border-radius:12px;background:" ++ color
    ++ ";color:#112;border:1px solid rgba(0,0,0,0.1);font-size:0.92em;'>"
    ++ label ++ "</span>".

Definition trans_color : string := "#e6f4ea".
Definition energy_color : string := "#e8f0fe".
Definition meal_color : string := "#fff4e5".

(** The tables of [format_summary_html]: key, label, unit, format. *)
Definition transport_rows : list (string * string * string * spec) :=
  [ ("petrol_liter", "üöó Petrol", "L", F1);
    ("diesel_liter", "üöô Diesel", "L", F1);
    ("bus_km", "üöå Bus", "km", F0);
    ("train_km", "üöÜ Train", "km", F0);
    ("bicycle_km", "üö¥ Bike", "km", F0) ].

(** Energy. *)
Definition energy_rows : list (string * string * string * spec) :=
  [ ("electricity_kwh", "‚ö° Electricity", "kWh", F1);
    ("district_heating_kwh", "üî• District heat", "kWh", F1);
    ("natural_gas_m3", "üè† Gas", "m¬≥", F1);
    ("hot_water_liter", "üöø Hot water", "L", F0) ].

(** The meals, for both summaries: key and label. *)
Definition meal_rows : list (string * string) :=
  [ ("meat_kg", "ü•© Meat");
    ("chicken_kg", "üçó Chicken");
    ("dairy_kg", "ü•õ Dairy");
    ("eggs_kg", "ü•ö Eggs");
    ("vegetarian_kg", "ü•ó Veg");
    ("vegan_kg", "üå± Vegan") ].

Section WithParser.

Variable parse_float : string -> option pyfloat.

(** [_num]: [float(v)], or [v] itself when that raises. *)
Definition _num (v : value) : value :=
  match _coerce_float parse_float v with
  | Some x => VFloat x
  | None => v
  end.

(** [if (val := _num(user_data.get(key))) and isinstance(val, float)
    and val > 0: parts.append(f"{label}: {val:<format>} {unit}")] *)
Definition part (user_data : dict value) (key label : string) (f : spec)
    (unit : string) : list string :=
  let val := _num (get user_data key) in
  if truthy val then
    match val with
    | VFloat x =>
        if gt0 x then [label ++ ": " ++ format f x ++ " " ++ unit] else []
    | VNone | VStr _ => []
    end
  else [].

(** One turn of the meals loop of [format_summary]. *)
Definition meal_bit (user_data : dict value) (row : string * string)
  : list string :=
  match _num (get user_data (fst row)) with
  | VFloat x =>
      if gt0 x then [snd row ++ ": " ++ format F2 x ++ " kg"] else []
  | VNone | VStr _ => []
  end.

Definition no_activities : string := "No activities logged yet.".

(** The transport and energy entries of [format_summary]. *)
Definition leading_parts (user_data : dict value) : list string :=
  (part user_data "petrol_liter" "üöó Petrol" F1 "L"
   ++ part user_data "diesel_liter" "üöô Diesel" F1 "L"
   ++ part user_data "bus_km" "üöå Bus" F0 "km"
   ++ part user_data "train_km" "üöÜ Train" F0 "km"
   ++ part user_data "bicycle_km" "üö¥ Bike" F0 "km"
   ++ part user_data "electricity_kwh" "‚ö° Electricity" F1 "kWh"
   ++ part user_data "district_heating_kwh" "üî• District heat" F1 "kWh"
   ++ part user_data "natural_gas_m3" "üè† Gas" F1 "m¬≥"
   ++ part user_data "hot_water_liter" "üöø Hot water" F0 "L")%list.

Definition format_summary (user_data : dict value) : string :=
  let parts := leading_parts user_data in
  let meal_bits := flat_map (meal_bit user_data) meal_rows in
  let parts :=
    match meal_bits with
    | [] => parts
    | _ :: _ => (parts ++ [Text.join " | " meal_bits])%list
    end in
  match parts with
  | [] => no_activities
  | _ :: _ => Text.join " | " parts
  end.

(** [try: fv = float(val)  except Exception: fv = 0.0] *)
Definition float_or_zero (v : value) : pyfloat :=
  default (Finite 0) (_coerce_float parse_float v).

(** One turn of the transport and energy loops of [format_summary_html]. *)
Definition html_row (user_data : dict value) (color : string)
    (row : string * string * string * spec) : list string :=
  let '(key, icon, unit, f) := row in
  let fv := float_or_zero (get user_data key) in
  if gt0 fv then [tag (icon ++ ": " ++ format f fv ++ " " ++ unit) color]
  else [].

(** One turn of its meals loop. *)
Definition html_meal (user_data : dict value) (row : string * string)
  : list string :=
  let fv := float_or_zero (get user_data (fst row)) in
  if gt0 fv then [tag (snd row ++ ": " ++ format F2 fv ++ " kg") meal_color]
  else [].

Definition no_activities_html : string :=
  "<em>No activities logged yet.</em>".

Definition format_summary_html (user_data : dict value) : string :=
  let html_parts :=
    (flat_map (html_row user_data trans_color) transport_rows
     ++ flat_map (html_row user_data energy_color) energy_rows
     ++ flat_map (html_meal user_data) meal_rows)%list in
  match html_parts with
  | [] => no_activities_html
  | _ :: _ => Text.join (String (ascii_of_nat 10) EmptyString) html_parts
  end.

(** The entries both summaries are made of: text and colour of each
    field that holds a number above zero, in the order transport, energy,
    meals. *)
Definition shown : list (string * string * string * spec * string) :=
  (map (fun r => (r, trans_color)) transport_rows
   ++ map (fun r => (r, energy_color)) energy_rows
   ++ map (fun r => (fst r, snd r, "kg", F2, meal_color)) meal_rows)%list.

Definition entry (user_data : dict value)
    (row : string * string * string * spec * string)
  : list (string * string) :=
  let '(key, label, unit, f, color) := row in
  match _coerce_float parse_float (get user_data key) with
  | Some x =>
      if gt0 x then [(label ++ ": " ++ format f x ++ " " ++ unit, color)]
      else []
  | None => []
  end.

Definition entries (user_data : dict value) : list (string * string) :=
  flat_map (entry user_data) shown.

End WithParser.

(** The fifteen fields the summaries show. *)
Definition shown_keys : list string :=
  map (fun row => fst (fst (fst (fst row)))) shown.

End Summary.

(** ** The charts of a document *)

Module Charts.
Import Pdf.



End Charts.

(** ** A sample report with sparklines *)

Module SampleCharts.
Import Pdf.

Definition series : dict (list Q) :=
  [("Energy", [1; 2]); ("Transport", [3]); ("Meals", [0]); ("Other", [5])].



End SampleCharts.

(** ** The page labels of a document *)

Module Labels.
Import Pdf.

(** The label the footer draws on page [n]. *)
Definition label (a : args) (n : nat) : op :=
  DrawRightString (right a) (bottom_m a - 0.4 * cm) (Pages.page_label n).



End Labels.

(** * Facts *)

(** ** Rounding *)

Module NumFacts.
Import Num.

Lemma round_half_even_comp (p q : Q) :
  p == q -> round_half_even p = round_half_even q.
Proof.
  intros E. unfold round_half_even.
  rewrite (Qfloor_comp _ _ E).
  assert (C : Qcompare (p - inject_Z (Qfloor q)) (1 # 2)
            = Qcompare (q - inject_Z (Qfloor q)) (1 # 2)).
  { apply Qcompare_comp; [rewrite E|]; reflexivity. }
  rewrite C. reflexivity.
Qed.

Lemma round2_comp (p q : Q) : p == q -> round2 p = round2 q.
Proof.
  intros E. unfold round2.
  rewrite (round_half_even_comp (p * 100) (q * 100)); [reflexivity|].
  rewrite E. reflexivity.
Qed.


End NumFacts.

Example format_2f_12_5 : Num.format_2f 12.5 = "12.50".
Proof. reflexivity. Qed.

Example format_2f_neg : Num.format_2f (- 0.001) = "-0.00".
Proof. reflexivity. Qed.

Example round2_half_even : Num.round2 0.125 == 0.12.
Proof. reflexivity. Qed.

(** ** [compute_category_emissions] *)

Module EmissionsFacts.
Import Emissions.

Section WithFactors.

Variable CO2_FACTORS : gmap string Q.

Lemma amount_spec (data : gmap string pyval) (k : string) :
  exists q, amount data k = Some q /\ q == spec_amount data k.
Proof.
  unfold amount, spec_amount.
  destruct (data !! k) as [[|q]|]; simpl.
  - exists 0. split; reflexivity.
  - unfold py_or. simpl. destruct (Qeq_bool q 0) eqn:E; simpl.
    + exists 0. split; [reflexivity|].
      apply Qeq_bool_iff in E. symmetry. exact E.
    + exists q. split; reflexivity.
  - exists 0. split; reflexivity.
Qed.

Lemma category_subtotal_from (data : gmap string pyval)
    (keys : list string) (acc : Q) :
  exists s,
    fold_left (subtotal_step CO2_FACTORS data) keys (Some acc) = Some s
    /\ s == acc + fold_right Qplus 0 (spec_factor_terms CO2_FACTORS data keys).
Proof.
  revert acc. induction keys as [|k keys IH]; intros acc.
  - exists acc. split; [reflexivity|]. simpl. lra.
  - destruct (amount_spec data k) as (q & Hq & Eq).
    cbn [fold_left]. unfold subtotal_step at 2. cbn [mbind option_bind].
    rewrite Hq. cbn [mbind option_bind].
    unfold spec_factor_terms. cbn [omap list_omap].
    destruct (CO2_FACTORS !! k) as [factor|].
    + destruct (IH (acc + q * factor)) as (s & Hs & Es).
      exists s. split; [exact Hs|].
      rewrite Es. unfold spec_factor_terms. cbn [fold_right].
      rewrite Eq. lra.
    + destruct (IH acc) as (s & Hs & Es).
      exists s. split; [exact Hs|]. exact Es.
Qed.

Lemma category_subtotal_spec (data : gmap string pyval)
    (keys : list string) :
  exists s,
    category_subtotal CO2_FACTORS data keys = Some s
    /\ Num.round2 s = spec_category_total CO2_FACTORS data keys.
Proof.
  destruct (category_subtotal_from data keys 0) as (s & Hs & Es).
  exists s. split; [exact Hs|].
  unfold spec_category_total. apply NumFacts.round2_comp.
  rewrite Es. lra.
Qed.



Lemma compute_is_spec (data : gmap string pyval) :
  compute_category_emissions CO2_FACTORS data
  = Some (spec_category_emissions CO2_FACTORS data).
Proof.
  unfold compute_category_emissions, spec_category_emissions, CATEGORY_MAP.
  cbn [fold_left map fst snd].
  unfold category_step. cbn [fst snd mbind option_bind].
  repeat match goal with
  | |- context [category_subtotal CO2_FACTORS data ?keys] =>
      let s := fresh "s" in
      let Hs := fresh "Hs" in
      let Es := fresh "Es" in
      destruct (category_subtotal_spec data keys) as (s & Hs & Es);
      rewrite Hs; cbn [mbind option_bind dict_set]; rewrite Es
  end.
  reflexivity.
Qed.

End WithFactors.

End EmissionsFacts.


(** ** [compute_streak] *)

Module StreakFacts.
Import Streak.

Lemma upto_shrinks (dayset : gset Z) (current : Z) :
  current ∈ dayset ->
  (size (upto dayset (current - 1)) < size (upto dayset current))%nat.
Proof.
  intros Hin. apply subset_size. unfold upto. split.
  - intros d Hd. apply elem_of_filter in Hd as [Hle Hd].
    apply elem_of_filter. split; [lia|exact Hd].
  - intros Hsub.
    assert (Hc : current ∈ filter (fun d => (d <= current - 1)%Z) dayset).
    { apply Hsub. apply elem_of_filter. split; [lia|exact Hin]. }
    apply elem_of_filter in Hc as [Hle _]. lia.
Qed.

Lemma streak_loop_spec (dayset : gset Z) (fuel : nat) :
  forall (streak : nat) (current : Z),
    (size (upto dayset current) < fuel)%nat ->
    exists n : nat,
      streak_loop fuel dayset streak current = Some (streak + n)%nat
      /\ (forall i, (0 <= i < Z.of_nat n)%Z -> (current - i)%Z ∈ dayset)
      /\ (current - Z.of_nat n)%Z ∉ dayset.
Proof.
  induction fuel as [|fuel IH]; intros streak current Hfuel; [lia|].
  cbn [streak_loop]. destruct (decide (current ∈ dayset)) as [Hin|Hout].
  - pose proof (upto_shrinks dayset current Hin) as Hlt.
    destruct (IH (S streak) (current - 1)%Z) as (n & Hrun & Hall & Hstop);
      [lia|].
    exists (S n). split; [rewrite Hrun; f_equal; lia|]. split.
    + intros i Hi. destruct (decide (i = 0%Z)) as [->|Hne].
      * replace (current - 0)%Z with current by lia. exact Hin.
      * replace (current - i)%Z with (current - 1 - (i - 1))%Z by lia.
        apply Hall. lia.
    + replace (current - Z.of_nat (S n))%Z
        with (current - 1 - Z.of_nat n)%Z by lia.
      exact Hstop.
  - exists O. split; [f_equal; lia|]. split.
    + intros i Hi. lia.
    + replace (current - Z.of_nat 0)%Z with current by lia. exact Hout.
Qed.

Lemma size_dayset (df : list Z) :
  (size (list_to_set df : gset Z) <= length df)%nat.
Proof.
  induction df as [|d df IH]; cbn [list_to_set length].
  - rewrite size_empty. lia.
  - rewrite size_union_alt, size_singleton.
    assert (Hsub : list_to_set df ∖ {[d]} ⊆ (list_to_set df : gset Z)).
    { intros x Hx. apply elem_of_difference in Hx as [Hx _]. exact Hx. }
    apply subseteq_size in Hsub. lia.
Qed.

Lemma size_upto (dayset : gset Z) (current : Z) :
  (size (upto dayset current) <= size dayset)%nat.
Proof.
  apply subseteq_size. unfold upto. intros x Hx.
  apply elem_of_filter in Hx as [_ Hx]. exact Hx.
Qed.

End StreakFacts.

Example compute_streak_3 :
  Streak.compute_streak 10 [5; 3; 4; 1]%Z 5%Z = Some 3%nat.
Proof. vm_compute. reflexivity. Qed.

(** C10. For every history frame and every date, [compute_streak]
    terminates: once the fuel exceeds the number of rows the loop returns,
    always the same number [n].  The [n] days ending at the given date
    are all logged and the day before them is not; [n] is 0 when the
    history is empty or the date itself is not logged. *)
Theorem compute_streak_terminates_and_counts
    (df : Streak.DataFrame) (date_val : Z) :
  exists n : nat,
    (forall fuel, (length df < fuel)%nat ->
       Streak.compute_streak fuel df date_val = Some n)
    /\ (forall i, (0 <= i < Z.of_nat n)%Z -> ((date_val - i)%Z ∈ df))
    /\ ((date_val - Z.of_nat n)%Z ∉ df)
    /\ ((df = [] \/ date_val ∉ df) -> n = 0%nat).
Proof.
  destruct df as [|d df].
  - exists O. split; [reflexivity|]. split; [intros i Hi; lia|].
    split; [apply not_elem_of_nil|]. reflexivity.
  - set (rows := d :: df).
    pose proof (StreakFacts.size_dayset rows) as Hsz.
    pose proof (StreakFacts.size_upto (list_to_set rows) date_val) as Hup.
    destruct (StreakFacts.streak_loop_spec (list_to_set rows)
                (S (length rows)) 0 date_val) as (n & _ & Hall & Hstop);
      [lia|].
    exists n. split; [|split; [|split]].
    + intros fuel Hfuel.
      destruct (StreakFacts.streak_loop_spec (list_to_set rows)
                  fuel 0 date_val) as (m & Hrun & Hall' & Hstop'); [lia|].
      change (Streak.compute_streak fuel rows date_val)
        with (Streak.streak_loop fuel (list_to_set rows) 0 date_val).
      rewrite Hrun. f_equal.
      destruct (Nat.lt_trichotomy m n) as [Hlt|[Heq|Hgt]]; [|exact Heq|].
      * exfalso. apply Hstop'. apply Hall. lia.
      * exfalso. apply Hstop. apply Hall'. lia.
    + intros i Hi. specialize (Hall i Hi).
      apply elem_of_list_to_set in Hall. exact Hall.
    + intros Hin. apply Hstop. apply elem_of_list_to_set. exact Hin.
    + intros [Hnil|Hout]; [discriminate|].
      destruct n as [|n]; [reflexivity|]. exfalso. apply Hout.
      assert (H0 : (0 <= 0 < Z.of_nat (S n))%Z) by lia.
      specialize (Hall 0%Z H0). apply elem_of_list_to_set in Hall.
      replace (date_val - 0)%Z with date_val in Hall by lia. exact Hall.
Qed.

(** ** The builder's monad *)

Module RunFacts.
Import Pdf Observe.

Lemma bind_run {A B} (m : M A) (k : A -> M B) (st : state) :
  (m ≫= k) st
  = match m st with
    | (st', Ret x) => k x st'
    | (st', Raise e) => (st', Raise e)
    end.
Proof. reflexivity. Qed.

Lemma bind_returned {A B} (m : M A) (k : A -> M B) (st st' : state) (b : B) :
  (m ≫= k) st = (st', Ret b) ->
  exists x st1, m st = (st1, Ret x) /\ k x st1 = (st', Ret b).
Proof.
  rewrite bind_run. destruct (m st) as [st1 [x|e]]; intros H.
  - exists x, st1. split; [reflexivity|exact H].
  - discriminate H.
Qed.

(** A block that leaves the canvas as it is. *)
Ltac adds_nothing :=
  intros st; exists []; split; [symmetry; apply app_nil_r|constructor].

Section Closure.

Context {P : op -> Prop}.

Lemma appends_ret {A} (x : A) : appends P (mret x : M A).
Proof. adds_nothing. Qed.

Lemma appends_raise {A} (e : string) : appends P (raise e : M A).
Proof. adds_nothing. Qed.

Lemma appends_get_y : appends P get_y.
Proof. adds_nothing. Qed.

Lemma appends_set_y (v : Q) : appends P (set_y v).
Proof. adds_nothing. Qed.

Lemma appends_sub_y (h : Q) : appends P (sub_y h).
Proof. adds_nothing. Qed.

Lemma appends_getPageNumber : appends P getPageNumber.
Proof. adds_nothing. Qed.

Lemma appends_emit surface (o : op) : P o -> appends P (emit surface o).
Proof.
  intros Ho st. unfold emit. destruct (surface (canvas st) o).
  - exists []. split; [symmetry; apply app_nil_r|constructor].
  - exists [o]. split; [reflexivity|]. constructor; [exact Ho|constructor].
Qed.

Lemma appends_bind {A B} (m : M A) (k : A -> M B) :
  appends P m -> (forall x, appends P (k x)) -> appends P (m ≫= k).
Proof.
  intros Hm Hk st. rewrite bind_run.
  destruct (Hm st) as (ops1 & E1 & F1).
  destruct (m st) as [st1 [x|e]]; cbn [fst] in E1.
  - destruct (Hk x st1) as (ops2 & E2 & F2).
    exists (ops1 ++ ops2)%list. split.
    + rewrite E2, E1. symmetry. apply app_assoc.
    + apply Forall_app. split; assumption.
  - exists ops1. split; assumption.
Qed.

Lemma appends_try {A} (body handler : M A) :
  appends P body -> appends P handler -> appends P (try_except body handler).
Proof.
  intros Hb Hh st. unfold try_except.
  destruct (Hb st) as (ops1 & E1 & F1).
  destruct (body st) as [st1 [x|e]]; cbn [fst] in E1.
  - exists ops1. split; assumption.
  - destruct (Hh st1) as (ops2 & E2 & F2).
    exists (ops1 ++ ops2)%list. split.
    + rewrite E2, E1. symmetry. apply app_assoc.
    + apply Forall_app. split; assumption.
Qed.

Lemma appends_for_each {A} (l : list A) (f : A -> M unit) :
  (forall x, appends P (f x)) -> appends P (for_each l f).
Proof.
  intros Hf. induction l as [|x l IH]; cbn [for_each].
  - apply appends_ret.
  - apply appends_bind; [apply Hf|intros _; exact IH].
Qed.

Lemma appends_for_fold {A S} (l : list A) (f : S -> A -> M S) (s : S) :
  (forall s x, appends P (f s x)) -> appends P (for_fold l f s).
Proof.
  intros Hf. revert s. induction l as [|x l IH]; intros s; cbn [for_fold].
  - apply appends_ret.
  - apply appends_bind; [apply Hf|intros s'; apply IH].
Qed.

End Closure.

Lemma returns_ret {A} (x : A) : returns (mret x : M A).
Proof. intros st. exists x. reflexivity. Qed.

Lemma returns_get_y : returns get_y.
Proof. intros st. eexists. reflexivity. Qed.

Lemma returns_set_y (v : Q) : returns (set_y v).
Proof. intros st. eexists. reflexivity. Qed.

Lemma returns_sub_y (h : Q) : returns (sub_y h).
Proof. intros st. eexists. reflexivity. Qed.

Lemma returns_getPageNumber : returns getPageNumber.
Proof. intros st. eexists. reflexivity. Qed.

Lemma returns_emit surface (o : op) :
  never_raises surface -> returns (emit surface o).
Proof.
  intros R st. unfold emit. rewrite R. exists tt. reflexivity.
Qed.

Lemma returns_bind {A B} (m : M A) (k : A -> M B) :
  returns m -> (forall x, returns (k x)) -> returns (m ≫= k).
Proof.
  intros Hm Hk st. rewrite bind_run.
  destruct (Hm st) as (x & E). destruct (m st) as [st1 [x'|e]]; cbn [snd] in E.
  - apply Hk.
  - discriminate E.
Qed.

Lemma returns_try_handler {A} (body handler : M A) :
  returns handler -> returns (try_except body handler).
Proof.
  intros Hh st. unfold try_except. destruct (body st) as [st1 [x|e]].
  - exists x. reflexivity.
  - apply Hh.
Qed.

Lemma returns_for_each {A} (l : list A) (f : A -> M unit) :
  (forall x, returns (f x)) -> returns (for_each l f).
Proof.
  intros Hf. induction l as [|x l IH]; cbn [for_each].
  - apply returns_ret.
  - apply returns_bind; [apply Hf|intros _; exact IH].
Qed.

End RunFacts.

(** ** The sections of the report *)

Module BuildFacts.
Import Pdf Observe RunFacts.

Ltac split_cases :=
  match goal with
  | |- _ _ (if ?b then _ else _) => destruct b
  | |- _ (if ?b then _ else _) => destruct b
  | |- _ _ (match ?x with _ => _ end) => destruct x
  | |- _ (match ?x with _ => _ end) => destruct x
  end.

(** Every operation a block adds satisfies [P]: follow the block's
    structure; [leaf] settles [P] at each canvas call and [known] the
    blocks already dealt with. *)
Ltac appends_steps known leaf :=
  repeat first
    [ known
    | apply appends_ret | apply appends_raise | apply appends_get_y
    | apply appends_set_y | apply appends_sub_y
    | apply appends_getPageNumber
    | apply appends_try
    | apply appends_for_each; intros ?
    | apply appends_for_fold; intros ? ?
    | apply appends_emit; leaf
    | apply appends_bind; [|intros ?]
    | split_cases ].

(** A block returns when the canvas never raises: each [try] is settled
    by its handler; [known] settles the blocks already dealt with. *)
Ltac returns_steps known :=
  repeat first
    [ known
    | apply returns_ret | apply returns_get_y | apply returns_set_y
    | apply returns_sub_y | apply returns_getPageNumber
    | apply returns_try_handler
    | apply returns_for_each; intros ?
    | apply returns_emit; assumption
    | apply returns_bind; [|intros ?]
    | split_cases ].

Section Sections.

Variable surface : list op -> op -> option string.
Variable mpl_ok : bool.
Variable HexColor : string -> option Color.
Variable ImageReader : bytes -> option Image.
Variable simpleSplit : string -> string -> Q -> Q -> list string.
Variable fmt_emissions : Q -> string.
Variable plot_series :
  option string -> option string -> option string -> string -> list Q ->
  option Image.
Variable plot_pie : option string -> option string -> dict Q -> option Image.
Variable a : args.

Local Abbreviation leading :=
  (leading_sections surface mpl_ok HexColor ImageReader simpleSplit
     fmt_emissions plot_series plot_pie a).
Local Abbreviation whole :=
  (body surface mpl_ok HexColor ImageReader simpleSplit fmt_emissions
     plot_series plot_pie a).

(** *** Returning *)

Lemma returns_show_page :
  never_raises surface -> returns (_show_page surface HexColor a).
Proof.
  intros R. unfold _show_page, _draw_footer, pass. returns_steps fail.
Qed.

Lemma returns_break_if_below (h : Q) :
  never_raises surface -> returns (break_if_below surface HexColor a h).
Proof.
  intros R. unfold break_if_below, pass.
  apply returns_bind; [apply returns_get_y|intros y].
  destruct (Qlt_le_dec y (bottom_m a + h)).
  - apply returns_bind; [apply returns_show_page; exact R|intros _].
    apply returns_set_y.
  - apply returns_ret.
Qed.

Lemma returns_category_lines (items : list (string * Q)) :
  never_raises surface -> returns (category_lines surface a items).
Proof.
  intros R. induction items as [|e rest IH]; cbn [category_lines].
  - apply returns_ret.
  - unfold pass. returns_steps ltac:(exact IH).
Qed.

Lemma returns_leading : never_raises surface -> returns leading.
Proof.
  intros R.
  pose proof (returns_break_if_below (2 * cm) R) as Hbreak.
  pose proof (fun items => returns_category_lines items R) as Hcat.
  pose proof (returns_show_page R) as Hshow.
  unfold leading_sections, middle_sections, title_section, meta_line,
    kpi_section, sparkline_section, spark_cell, summary_block, tip_block,
    category_section, pie_chart, paragraph_line, pass.
  returns_steps ltac:(first [apply Hbreak | apply Hcat | apply Hshow]).
Qed.

Lemma returns_activity_section :
  never_raises surface -> returns (activity_section surface HexColor a).
Proof.
  intros R.
  pose proof (returns_break_if_below (2 * cm) R) as Hbreak.
  unfold activity_section, activity_line, pass.
  returns_steps ltac:(apply Hbreak).
Qed.

Lemma returns_finish :
  never_raises surface -> returns (finish surface HexColor a).
Proof.
  intros R. unfold finish.
  apply returns_bind; [apply returns_show_page; exact R|intros _].
  apply returns_emit. exact R.
Qed.

Lemma returns_body : never_raises surface -> returns whole.
Proof.
  intros R. unfold body.
  apply returns_bind; [apply returns_leading; exact R|intros _].
  apply returns_bind; [apply returns_activity_section; exact R|intros _].
  apply returns_finish. exact R.
Qed.

(** *** What the sections add to the canvas *)

Section Appends.

Variable P : op -> Prop.
Hypothesis P_plain : forall o, plain o -> P o.
Hypothesis P_text : appends P (fill_from surface HexColor (text_hex a)).
Hypothesis P_primary :
  appends P (fill_from surface HexColor (primary_color a)).
Hypothesis P_badge :
  truthy (logo_bytes a) = false ->
  forall y, appends P (badge surface HexColor a y).

Ltac plain_op := apply P_plain; cbn; auto.

Lemma appends_show_page : appends P (_show_page surface HexColor a).
Proof.
  unfold _show_page, _draw_footer, pass.
  appends_steps ltac:(apply P_text) plain_op.
Qed.

Lemma appends_break_if_below (h : Q) :
  appends P (break_if_below surface HexColor a h).
Proof.
  unfold break_if_below, pass.
  appends_steps ltac:(apply appends_show_page) plain_op.
Qed.

Lemma appends_category_lines (items : list (string * Q)) :
  appends P (category_lines surface a items).
Proof.
  induction items as [|e rest IH]; cbn [category_lines].
  - apply appends_ret.
  - unfold pass. appends_steps ltac:(exact IH) plain_op.
Qed.

Lemma appends_title_section :
  appends P (title_section surface HexColor ImageReader a).
Proof.
  unfold title_section, image_reader, pass.
  destruct (logo_bytes a) as [b|] eqn:Elogo.
  - destruct (truthy (Some b)) eqn:Etruthy.
    + appends_steps ltac:(first [apply P_text | apply P_primary]) plain_op.
    + specialize (P_badge eq_refl).
      appends_steps
        ltac:(first [apply P_text | apply P_primary | apply P_badge])
        plain_op.
  - specialize (P_badge eq_refl).
    appends_steps
      ltac:(first [apply P_text | apply P_primary | apply P_badge])
      plain_op.
Qed.

Lemma appends_middle :
  appends P (middle_sections surface mpl_ok HexColor simpleSplit
               fmt_emissions plot_series plot_pie a).
Proof.
  unfold middle_sections, meta_line, kpi_section, sparkline_section,
    spark_cell, summary_block, tip_block, category_section, pie_chart,
    paragraph_line, pass.
  appends_steps
    ltac:(first [ apply appends_break_if_below | apply appends_show_page
                | apply appends_category_lines ])
    plain_op.
Qed.

Lemma appends_leading : appends P leading.
Proof.
  unfold leading_sections, pass.
  appends_steps
    ltac:(first [ apply P_text | apply appends_title_section
                | apply appends_middle ])
    plain_op.
Qed.

Lemma appends_activity_section :
  appends P (activity_section surface HexColor a).
Proof.
  unfold activity_section, activity_line, pass.
  appends_steps ltac:(apply appends_break_if_below) plain_op.
Qed.

Lemma appends_finish : appends P (finish surface HexColor a).
Proof.
  unfold finish.
  appends_steps ltac:(apply appends_show_page) plain_op.
Qed.

Lemma appends_body : appends P whole.
Proof.
  unfold body.
  appends_steps
    ltac:(first [ apply appends_leading | apply appends_activity_section
                | apply appends_finish ])
    plain_op.
Qed.

End Appends.

End Sections.

End BuildFacts.

(** ** The document as a whole *)

Module DocFacts.
Import Pdf Observe RunFacts BuildFacts.

Lemma emit_run surface (o : op) (st : state) :
  never_raises surface ->
  emit surface o st = (State (canvas st ++ [o]) (cursor st), Ret tt).
Proof. intros R. unfold emit. rewrite R. reflexivity. Qed.

Lemma emit_returned surface (o : op) (st st' : state) (x : unit) :
  emit surface o st = (st', Ret x) -> canvas st' = (canvas st ++ [o])%list.
Proof.
  unfold emit. destruct (surface (canvas st) o); intros H.
  - discriminate H.
  - injection H as <- _. reflexivity.
Qed.

Lemma draws_bind_l {A B} (P : op -> Prop) (m : M A) (k : A -> M B) :
  draws P m -> (forall x, appends (fun _ => True) (k x)) ->
  draws P (m ≫= k).
Proof.
  intros Hm Hk st. rewrite bind_run.
  destruct (Hm st) as (o & Ho & Hin).
  destruct (m st) as [st1 [x|e]]; cbn [fst] in Hin.
  - destruct (Hk x st1) as (ops & E & _).
    exists o. split; [exact Ho|]. rewrite E. apply in_or_app. left. exact Hin.
  - exists o. split; assumption.
Qed.

Lemma draws_bind_r {A B} (P : op -> Prop) (m : M A) (k : A -> M B) :
  returns m -> (forall x, draws P (k x)) -> draws P (m ≫= k).
Proof.
  intros Hm Hk st. rewrite bind_run.
  destruct (Hm st) as (x & E).
  destruct (m st) as [st1 [x'|e]]; cbn [snd] in E.
  - apply Hk.
  - discriminate E.
Qed.

Section Document.

Variable surface : list op -> op -> option string.
Variable reportlab_import : option string.
Variable mpl_ok : bool.
Variable HexColor : string -> option Color.
Variable ImageReader : bytes -> option Image.
Variable simpleSplit : string -> string -> Q -> Q -> list string.
Variable fmt_emissions : Q -> string.
Variable plot_series :
  option string -> option string -> option string -> string -> list Q ->
  option Image.
Variable plot_pie : option string -> option string -> dict Q -> option Image.
Variable a : args.

Local Abbreviation build :=
  (build_eco_tips_pdf surface reportlab_import mpl_ok HexColor ImageReader
     simpleSplit fmt_emissions plot_series plot_pie a).
Local Abbreviation whole :=
  (body surface mpl_ok HexColor ImageReader simpleSplit fmt_emissions
     plot_series plot_pie a).

(** Setting the fill colour from a hex string adds fill operations only. *)
Lemma fill_from_fills (hex : option string) :
  appends (fun o => is_fill o = true) (fill_from surface HexColor hex).
Proof.
  unfold fill_from, hex_color, pass.
  appends_steps fail ltac:(reflexivity).
Qed.

(** No operation but a fill follows the page break. *)
Lemma finish_terminated (st st' : state) (x : unit) :
  finish surface HexColor a st = (st', Ret x) ->
  exists pre tail,
    canvas st' = (pre ++ ShowPage :: tail ++ [Save])%list
    /\ Forall (fun o => is_fill o = true) tail.
Proof.
  unfold finish, _show_page. intros H.
  apply bind_returned in H as (x1 & st3 & Hshow & Hsave).
  apply emit_returned in Hsave.
  apply bind_returned in Hshow as (x2 & st1 & _ & Hshow).
  apply bind_returned in Hshow as (x3 & st2 & Hpage & Hfill).
  apply emit_returned in Hpage.
  assert (Happ : appends (fun o => is_fill o = true)
            (try_except (fill_from surface HexColor (text_hex a))
               (emit surface (SetFillColorRGB 0 0 0)))).
  { apply appends_try; [apply fill_from_fills|].
    apply appends_emit. reflexivity. }
  destruct (Happ st2) as (tail & E & F). rewrite Hfill in E. cbn [fst] in E.
  exists (canvas st1), tail. split; [|exact F].
  rewrite Hsave, E, Hpage. rewrite <- !app_assoc. reflexivity.
Qed.

Lemma body_terminated (st st' : state) (x : unit) :
  whole st = (st', Ret x) -> page_terminated (canvas st').
Proof.
  unfold body. intros H.
  apply bind_returned in H as (x1 & st1 & _ & H).
  apply bind_returned in H as (x2 & st2 & _ & H).
  apply finish_terminated in H. exact H.
Qed.

End Document.

End DocFacts.


(** ** Colours and the logo *)

Module ThemeFacts.
Import Pdf Observe RunFacts BuildFacts DocFacts.


Lemma plain_no_badge (o : op) : plain o -> no_badge o.
Proof.
  destruct o; cbn; intros H; first [reflexivity | contradiction].
Qed.

Lemma plain_anything (o : op) : plain o -> (fun _ : op => True) o.
Proof. intros _. exact I. Qed.

Section Theme.

Variable surface : list op -> op -> option string.
Variable mpl_ok : bool.
Variable HexColor : string -> option Color.
Variable ImageReader : bytes -> option Image.
Variable simpleSplit : string -> string -> Q -> Q -> list string.
Variable fmt_emissions : Q -> string.
Variable plot_series :
  option string -> option string -> option string -> string -> list Q ->
  option Image.
Variable plot_pie : option string -> option string -> dict Q -> option Image.
Variable a : args.

Local Abbreviation whole :=
  (body surface mpl_ok HexColor ImageReader simpleSplit fmt_emissions
     plot_series plot_pie a).




Lemma fill_from_anything (P : op -> Prop) (hex : option string) :
  (forall col, P (SetFillColor col)) ->
  appends P (fill_from surface HexColor hex).
Proof.
  intros HP. unfold fill_from, hex_color, pass.
  appends_steps fail ltac:(apply HP).
Qed.


(** Every block only adds to the canvas. *)
Lemma middle_grows :
  appends (fun _ => True)
    (middle_sections surface mpl_ok HexColor simpleSplit fmt_emissions
       plot_series plot_pie a).
Proof.
  apply appends_middle.
  - exact plain_anything.
  - apply fill_from_anything. intros; exact I.
Qed.

Lemma activity_grows :
  appends (fun _ => True) (activity_section surface HexColor a).
Proof.
  apply appends_activity_section.
  - exact plain_anything.
  - apply fill_from_anything. intros; exact I.
Qed.

Lemma finish_grows : appends (fun _ => True) (finish surface HexColor a).
Proof.
  apply appends_finish.
  - exact plain_anything.
  - apply fill_from_anything. intros; exact I.
Qed.

(** *** A logo that cannot be decoded *)

Section BrokenLogo.

Variable b : bytes.
Hypothesis R : never_raises surface.
Hypothesis Hlogo : logo_bytes a = Some b.
Hypothesis Hsupplied : truthy (Some b) = true.
Hypothesis Hbroken : ImageReader b = None.

Lemma body_no_badge : appends no_badge whole.
Proof.
  apply appends_body.
  - exact plain_no_badge.
  - apply fill_from_anything. intros; reflexivity.
  - apply fill_from_anything. intros; reflexivity.
  - rewrite Hlogo, Hsupplied. discriminate.
Qed.

Lemma title_section_draws_title :
  draws (title_at_left a) (title_section surface HexColor ImageReader a).
Proof.
  unfold title_section.
  apply draws_bind_r; [apply returns_set_y|intros _].
  apply draws_bind_r; [apply returns_emit; exact R|intros _].
  apply draws_bind_r; [apply returns_emit; exact R|intros _].
  apply draws_bind_r; [apply returns_try_handler, returns_ret|intros _].
  apply draws_bind_r; [apply returns_get_y|intros y].
  apply draws_bind_l.
  - intros st. rewrite Hlogo, Hsupplied.
    unfold try_except, image_reader. rewrite Hbroken.
    rewrite bind_run. cbn [raise]. rewrite emit_run by exact R.
    exists (DrawString (left a) y (draw_title a)).
    split; [exists y; reflexivity|].
    cbn [fst canvas]. apply in_or_app. right. left. reflexivity.
  - intros _. unfold pass.
    appends_steps ltac:(apply fill_from_anything; intros; exact I)
                  ltac:(exact I).
Qed.

Lemma body_draws_title : draws (title_at_left a) whole.
Proof.
  unfold body, leading_sections.
  apply draws_bind_l.
  - apply draws_bind_r; [apply returns_try_handler, returns_ret|intros _].
    apply draws_bind_l; [apply title_section_draws_title|].
    intros _. apply middle_grows.
  - intros _. apply appends_bind; [apply activity_grows|].
    intros _. apply finish_grows.
Qed.

End BrokenLogo.

End Theme.

End ThemeFacts.



(** C6, as the code has it. When logo bytes are supplied and cannot be
    decoded, and the drawing surface does not fail, the build succeeds;
    the title is drawn at the left margin, where the logo would have
    been; no fallback badge is drawn anywhere in the document. *)
Theorem undecodable_logo_draws_title_only
    (surface : list Pdf.op -> Pdf.op -> option string) (mpl_ok : bool)
    (HexColor : string -> option Pdf.Color)
    (ImageReader : Pdf.bytes -> option Pdf.Image)
    (simpleSplit : string -> string -> Q -> Q -> list string)
    (fmt_emissions : Q -> string)
    (plot_series :
       option string -> option string -> option string -> string -> list Q ->
       option Pdf.Image)
    (plot_pie : option string -> option string -> dict Q -> option Pdf.Image)
    (a : Pdf.args) (b : Pdf.bytes) :
  Observe.never_raises surface ->
  Pdf.logo_bytes a = Some b ->
  Pdf.truthy (Some b) = true ->
  ImageReader b = None ->
  exists doc,
    Pdf.build_eco_tips_pdf surface None mpl_ok HexColor ImageReader
      simpleSplit fmt_emissions plot_series plot_pie a = (Some doc, None)
    /\ (exists y, In (Pdf.DrawString (Pdf.left a) y (Pdf.draw_title a)) doc)
    /\ Forall Observe.no_badge doc.
Proof.
  intros R Hlogo Hsupplied Hbroken. unfold Pdf.build_eco_tips_pdf.
  destruct (BuildFacts.returns_body surface mpl_ok HexColor ImageReader
              simpleSplit fmt_emissions plot_series plot_pie a R Pdf.fresh)
    as (x & Hret).
  destruct (ThemeFacts.body_no_badge surface mpl_ok HexColor ImageReader
              simpleSplit fmt_emissions plot_series plot_pie a b
              Hlogo Hsupplied Pdf.fresh) as (ops & Hops & Hall).
  destruct (ThemeFacts.body_draws_title surface mpl_ok HexColor ImageReader
              simpleSplit fmt_emissions plot_series plot_pie a b
              R Hlogo Hsupplied Hbroken Pdf.fresh) as (o & (y0 & ->) & Hin).
  destruct (Pdf.body surface mpl_ok HexColor ImageReader simpleSplit
              fmt_emissions plot_series plot_pie a Pdf.fresh) as [st [y|e]].
  - exists (Pdf.canvas st). split; [reflexivity|]. split.
    + exists y0. exact Hin.
    + cbn [fst] in Hops. rewrite Hops. exact Hall.
  - discriminate Hret.
Qed.

Lemma undecodable_logo_witness :
  Observe.never_raises Sample.reliable
  /\ Pdf.logo_bytes Sample.broken_logo = Some "not an image"
  /\ Pdf.truthy (Some "not an image") = true
  /\ Sample.ImageReader "not an image" = None
  /\ exists doc,
       Sample.build false Sample.broken_logo = (Some doc, None)
       /\ (exists y,
             In (Pdf.DrawString (Pdf.left Sample.broken_logo) y
                   (Pdf.draw_title Sample.broken_logo)) doc)
       /\ Forall Observe.no_badge doc.
Proof.
  assert (R : Observe.never_raises Sample.reliable)
    by (intros c o; reflexivity).
  split; [exact R|]. split; [reflexivity|]. split; [reflexivity|].
  split; [reflexivity|].
  exact (undecodable_logo_draws_title_only Sample.reliable false
           Sample.HexColor Sample.ImageReader Sample.simpleSplit
           Sample.fmt_emissions Sample.plot_series Sample.plot_pie
           Sample.broken_logo "not an image" R eq_refl eq_refl eq_refl).
Defined.

(** C6 as stated fails: with a logo that cannot be decoded the build
    succeeds, yet the document holds no badge operation at all; with no
    logo the badge is there. *)
Lemma undecodable_logo_gets_no_badge :
  Sample.ImageReader "not an image" = None
  /\ option_map (existsb Observe.is_badge)
       (fst (Sample.build false Sample.broken_logo)) = Some false
  /\ option_map (existsb Observe.is_badge)
       (fst (Sample.build false Sample.scenario)) = Some true.
Proof. split; [reflexivity|]. split; vm_compute; reflexivity. Qed.

(** C8. When the per-activity dictionary is empty or absent, the
    per-activity section does nothing: no heading, no row, the cursor
    unmoved.  The document is then the leading sections followed by the
    closing page, and neither of these depends on the per-activity
    dictionary. *)
Theorem empty_activity_table_is_omitted
    (surface : list Pdf.op -> Pdf.op -> option string) (mpl_ok : bool)
    (HexColor : string -> option Pdf.Color)
    (ImageReader : Pdf.bytes -> option Pdf.Image)
    (simpleSplit : string -> string -> Q -> Q -> list string)
    (fmt_emissions : Q -> string)
    (plot_series :
       option string -> option string -> option string -> string -> list Q ->
       option Pdf.Image)
    (plot_pie : option string -> option string -> dict Q -> option Pdf.Image)
    (a : Pdf.args) :
  Pdf.nonempty (Pdf.per_activity a) = false ->
  (forall st, Pdf.activity_section surface HexColor a st = (st, Pdf.Ret tt))
  /\ (forall st,
        Pdf.body surface mpl_ok HexColor ImageReader simpleSplit
          fmt_emissions plot_series plot_pie a st
        = (Pdf.leading_sections surface mpl_ok HexColor ImageReader
             simpleSplit fmt_emissions plot_series plot_pie a;;
           Pdf.finish surface HexColor a) st)
  /\ (forall table,
        Pdf.leading_sections surface mpl_ok HexColor ImageReader
          simpleSplit fmt_emissions plot_series plot_pie
          (Pdf.with_activity a table)
        = Pdf.leading_sections surface mpl_ok HexColor ImageReader
            simpleSplit fmt_emissions plot_series plot_pie a
        /\ Pdf.finish surface HexColor (Pdf.with_activity a table)
           = Pdf.finish surface HexColor a).
Proof.
  intros Hempty.
  assert (Hskip : forall st,
            Pdf.activity_section surface HexColor a st = (st, Pdf.Ret tt)).
  { intros st. unfold Pdf.activity_section. rewrite Hempty. reflexivity. }
  split; [exact Hskip|]. split.
  - intros st. unfold Pdf.body. rewrite !RunFacts.bind_run.
    destruct (Pdf.leading_sections surface mpl_ok HexColor ImageReader
                simpleSplit fmt_emissions plot_series plot_pie a st)
      as [st1 [x|e]]; [|reflexivity].
    rewrite RunFacts.bind_run, Hskip. reflexivity.
  - intros table. destruct a. split; reflexivity.
Qed.

Lemma empty_activity_table_witness :
  Pdf.nonempty (Pdf.per_activity Sample.scenario) = false
  /\ Pdf.activity_section Sample.reliable Sample.HexColor Sample.scenario
       Pdf.fresh
     = (Pdf.fresh, Pdf.Ret tt).
Proof.
  split; [reflexivity|].
  exact (proj1 (empty_activity_table_is_omitted Sample.reliable false
                  Sample.HexColor Sample.ImageReader Sample.simpleSplit
                  Sample.fmt_emissions Sample.plot_series Sample.plot_pie
                  Sample.scenario eq_refl) Pdf.fresh).
Defined.

(** ** The line loops *)

Module LoopFacts.
Import Pdf Observe RunFacts BuildFacts DocFacts ThemeFacts.

Lemma keeps_ret {A} (x : A) : keeps_cursor (mret x : M A).
Proof. intros st. reflexivity. Qed.

Lemma keeps_raise {A} (e : string) : keeps_cursor (raise e : M A).
Proof. intros st. reflexivity. Qed.

Lemma keeps_getPageNumber : keeps_cursor getPageNumber.
Proof. intros st. reflexivity. Qed.

Lemma keeps_emit surface (o : op) : keeps_cursor (emit surface o).
Proof.
  intros st. unfold emit. destruct (surface (canvas st) o); reflexivity.
Qed.

Lemma keeps_bind {A B} (m : M A) (k : A -> M B) :
  keeps_cursor m -> (forall x, keeps_cursor (k x)) -> keeps_cursor (m ≫= k).
Proof.
  intros Hm Hk st. rewrite bind_run. specialize (Hm st).
  destruct (m st) as [st1 [x|e]]; cbn [fst] in Hm.
  - rewrite Hk. exact Hm.
  - exact Hm.
Qed.

Lemma keeps_try {A} (body handler : M A) :
  keeps_cursor body -> keeps_cursor handler ->
  keeps_cursor (try_except body handler).
Proof.
  intros Hb Hh st. unfold try_except. specialize (Hb st).
  destruct (body st) as [st1 [x|e]]; cbn [fst] in Hb.
  - exact Hb.
  - rewrite Hh. exact Hb.
Qed.

Ltac keeps_steps known :=
  repeat first
    [ known
    | apply keeps_ret | apply keeps_raise | apply keeps_getPageNumber
    | apply keeps_emit
    | apply keeps_try
    | apply keeps_bind; [|intros ?]
    | split_cases ].

Lemma pages_broken_app (l1 l2 : list op) :
  pages_broken (l1 ++ l2) = (pages_broken l1 + pages_broken l2)%nat.
Proof.
  unfold pages_broken. rewrite List.filter_app, length_app. reflexivity.
Qed.

Lemma pages_broken_none (ops : list op) :
  Forall (fun o => is_show_page o = false) ops -> pages_broken ops = O.
Proof.
  unfold pages_broken. induction 1 as [|o ops Ho _ IH]; [reflexivity|].
  cbn [List.filter]. rewrite Ho. exact IH.
Qed.

Section Loops.

Variable surface : list op -> op -> option string.
Variable HexColor : string -> option Color.
Variable a : args.
Hypothesis R : never_raises surface.

Local Abbreviation top := (height - top_m a).
Local Abbreviation mark := (bottom_m a + 2 * cm).

Lemma keeps_fill_from (hex : option string) :
  keeps_cursor (fill_from surface HexColor hex).
Proof. unfold fill_from, hex_color, pass. keeps_steps fail. Qed.

Lemma keeps_draw_footer : keeps_cursor (_draw_footer surface HexColor a).
Proof.
  unfold _draw_footer, pass. keeps_steps ltac:(apply keeps_fill_from).
Qed.

Lemma draw_footer_breaks_no_page :
  appends (fun o => is_show_page o = false) (_draw_footer surface HexColor a).
Proof.
  unfold _draw_footer, pass.
  appends_steps ltac:(apply fill_from_anything; intros; reflexivity)
                ltac:(reflexivity).
Qed.

(** A page break: the footer, one [showPage], the fill colour again; the
    cursor is not touched. *)
Lemma show_page_run (st : state) :
  exists st' ops,
    _show_page surface HexColor a st = (st', Ret tt)
    /\ canvas st' = (canvas st ++ ops)%list
    /\ cursor st' = cursor st
    /\ pages_broken ops = 1%nat.
Proof.
  unfold _show_page. rewrite bind_run.
  pose proof (keeps_draw_footer st) as Kf.
  destruct (draw_footer_breaks_no_page st) as (ops1 & E1 & F1).
  assert (Rf : returns (_draw_footer surface HexColor a)).
  { unfold _draw_footer, pass. returns_steps fail. }
  destruct (Rf st) as (x1 & Hr1).
  destruct (_draw_footer surface HexColor a st) as [st1 [u1|e1]];
    [|discriminate Hr1].
  cbn [fst] in Kf, E1. rewrite bind_run, emit_run by exact R.
  set (st2 := State (canvas st1 ++ [ShowPage]) (cursor st1)).
  set (reset := try_except (fill_from surface HexColor (text_hex a))
                  (emit surface (SetFillColorRGB 0 0 0))).
  assert (Kr : keeps_cursor reset).
  { apply keeps_try; [apply keeps_fill_from|apply keeps_emit]. }
  assert (Ar : appends (fun o => is_show_page o = false) reset).
  { apply appends_try; [apply fill_from_anything; intros; reflexivity|].
    apply appends_emit. reflexivity. }
  assert (Rr : returns reset).
  { apply returns_try_handler, returns_emit, R. }
  specialize (Kr st2). destruct (Ar st2) as (ops3 & E3 & F3).
  destruct (Rr st2) as (x3 & Hr3).
  destruct (reset st2) as [st3 [[]|e3]]; [|discriminate Hr3].
  cbn [fst] in Kr, E3.
  exists st3, (ops1 ++ [ShowPage] ++ ops3)%list.
  split; [reflexivity|]. split; [|split].
  - rewrite E3. unfold st2. cbn [canvas]. rewrite E1.
    rewrite <- !app_assoc. reflexivity.
  - rewrite Kr. unfold st2. cbn [cursor]. exact Kf.
  - rewrite !pages_broken_app, (pages_broken_none ops1 F1),
      (pages_broken_none ops3 F3). reflexivity.
Qed.

(** One line of a paged loop. *)
Lemma paged_line_run (step : Q) (text : string) (st : state) :
  exists st' brk,
    paged_line surface HexColor a step text st = (st', Ret tt)
    /\ canvas st'
       = (canvas st ++ DrawString (left a) (cursor st) text :: brk)%list
    /\ cursor st' = next_y top mark step (cursor st)
    /\ pages_broken brk
       = (if Qlt_le_dec (cursor st - step) mark then 1 else 0)%nat.
Proof.
  unfold paged_line, break_if_below, next_y.
  rewrite bind_run. cbv beta iota delta [get_y].
  rewrite bind_run, emit_run by exact R.
  rewrite bind_run. cbv beta iota delta [sub_y]. cbn [canvas cursor].
  rewrite bind_run. cbv beta iota delta [get_y]. cbn [canvas cursor].
  destruct (Qlt_le_dec (cursor st - step) mark) as [Hlow|Hok].
  - rewrite bind_run.
    destruct (show_page_run
                (State (canvas st ++ [DrawString (left a) (cursor st) text])
                   (cursor st - step)))
      as (st1 & ops & Hrun & Hcanvas & Hcursor & Hpages).
    rewrite Hrun. cbv beta iota delta [set_y].
    eexists. exists ops. split; [reflexivity|]. cbn [canvas cursor].
    split; [|split; [reflexivity|exact Hpages]].
    rewrite Hcanvas. cbn [canvas]. rewrite <- app_assoc. reflexivity.
  - eexists. exists []. split; [reflexivity|]. cbn [canvas cursor].
    split; [reflexivity|]. split; reflexivity.
Qed.

(** A whole paged loop: every line is drawn, at the positions the
    cursor rule gives, with page-break operations in between. *)
Lemma paged_loop_run (step : Q) (texts : list string) :
  forall st,
  exists st' ops,
    for_each texts (paged_line surface HexColor a step) st = (st', Ret tt)
    /\ canvas st' = (canvas st ++ ops)%list
    /\ sublist
         (zip_with (DrawString (left a))
            (paged_positions top mark step (cursor st) (length texts))
            texts)
         ops
    /\ cursor st' = paged_cursor top mark step (cursor st) (length texts)
    /\ pages_broken ops
       = page_breaks top mark step (cursor st) (length texts).
Proof.
  induction texts as [|text rest IH]; intros st.
  - exists st, []. split; [reflexivity|]. split; [symmetry; apply app_nil_r|].
    split; [constructor|]. split; reflexivity.
  - cbn [for_each length paged_positions paged_cursor page_breaks zip_with].
    rewrite bind_run.
    destruct (paged_line_run step text st)
      as (st1 & brk & Hrun & Hcanvas & Hcursor & Hpages).
    rewrite Hrun.
    destruct (IH st1) as (st2 & ops & Hrun2 & Hcanvas2 & Hsub & Hcur2 & Hpg2).
    exists st2, (DrawString (left a) (cursor st) text :: brk ++ ops)%list.
    split; [exact Hrun2|]. rewrite <- Hcursor.
    split; [|split; [|split]].
    + rewrite Hcanvas2, Hcanvas. rewrite <- app_assoc. reflexivity.
    + apply sublist_skip. apply sublist_inserts_l. exact Hsub.
    + exact Hcur2.
    + change (DrawString (left a) (cursor st) text :: brk ++ ops)%list
        with ([DrawString (left a) (cursor st) text] ++ brk ++ ops)%list.
      rewrite !pages_broken_app, Hpages, Hpg2. reflexivity.
Qed.

(** The per-category loop draws the first [k] entries and stops: at the
    end of the list, or at the first entry after which the cursor is
    below [bottom_m + 6*cm]. *)
Lemma category_lines_run (items : list (string * Q)) :
  forall st,
  exists k st',
    category_lines surface a items st = (st', Ret tt)
    /\ canvas st'
       = (canvas st
          ++ rows_from (left a) (cursor st) (0.45 * cm)
               (map key_value (take k items)))%list
    /\ cursor st' = lowered (cursor st) (0.45 * cm) k
    /\ (k <= length items)%nat
    /\ (items <> [] -> (1 <= k)%nat)
    /\ ((k < length items)%nat -> cursor st' < bottom_m a + 6 * cm)
    /\ (forall j, (1 <= j < k)%nat ->
          bottom_m a + 6 * cm <= lowered (cursor st) (0.45 * cm) j).
Proof.
  induction items as [|e rest IH]; intros st.
  - exists O, st. split; [reflexivity|].
    split; [symmetry; apply app_nil_r|]. split; [reflexivity|].
    split; [reflexivity|]. split; [intros H; contradiction|].
    split; [cbn; lia|]. intros j Hj. lia.
  - cbn [category_lines].
    rewrite bind_run. cbv beta iota delta [get_y].
    rewrite bind_run, emit_run by exact R.
    rewrite bind_run. cbv beta iota delta [sub_y]. cbn [canvas cursor].
    rewrite bind_run. cbv beta iota delta [get_y]. cbn [canvas cursor].
    destruct (Qlt_le_dec (cursor st - 0.45 * cm) (bottom_m a + 6 * cm))
      as [Hlow|Hok].
    + exists 1%nat. eexists. split; [reflexivity|]. cbn [canvas cursor].
      split; [reflexivity|]. split; [reflexivity|].
      split; [cbn; lia|]. split; [intros _; lia|].
      split; [intros _; exact Hlow|]. intros j Hj. lia.
    + destruct (IH (State (canvas st
                             ++ [DrawString (left a) (cursor st) (key_value e)])
                      (cursor st - 0.45 * cm)))
        as (k & st' & Hrun & Hcanvas & Hcursor & Hlen & _ & Hcut & Habove).
      cbn [canvas cursor] in Hcanvas, Hcursor, Habove.
      exists (S k), st'. split; [exact Hrun|].
      split; [|split; [exact Hcursor|]].
      * rewrite Hcanvas. rewrite <- app_assoc. reflexivity.
      * split; [cbn; lia|]. split; [intros _; lia|].
        split; [intros Hk; apply Hcut; cbn in Hk; lia|].
        intros j Hj. destruct j as [|[|j]]; [lia|exact Hok|].
        apply (Habove (S j)). lia.
Qed.

End Loops.

(** The lines of a paged loop stay at or above the low-water mark when the
    loop starts there and a fresh page does too. *)
Lemma paged_positions_above (top mark step y : Q) (n : nat) :
  mark <= top -> mark <= y ->
  Forall (fun p => mark <= p) (paged_positions top mark step y n)
  /\ mark <= paged_cursor top mark step y n.
Proof.
  intros Htop. revert y. induction n as [|n IH]; intros y Hy.
  - split; [constructor|exact Hy].
  - cbn [paged_positions paged_cursor].
    assert (Hnext : mark <= next_y top mark step y).
    { unfold next_y. destruct (Qlt_le_dec (y - step) mark); assumption. }
    destruct (IH _ Hnext) as [Hall Hcur].
    split; [constructor; assumption|exact Hcur].
Qed.

Lemma for_each_map {A B} (f : A -> B) (g : B -> M unit) (l : list A) :
  for_each (map f l) g = for_each l (fun x => g (f x)).
Proof.
  induction l as [|x l IH]; [reflexivity|].
  cbn [map for_each]. rewrite IH. reflexivity.
Qed.

(** *** Sorting *)

Lemma insert_desc_perm (e : string * Q) (l : list (string * Q)) :
  Permutation (e :: l) (insert_desc e l).
Proof.
  induction l as [|h t IH]; cbn [insert_desc]; [reflexivity|].
  destruct (Qlt_le_dec (snd e) (snd h)); [|reflexivity].
  rewrite perm_swap. apply perm_skip. exact IH.
Qed.

Lemma sorted_desc_perm (items : list (string * Q)) :
  Permutation items (sorted_desc items).
Proof.
  induction items as [|e items IH]; [reflexivity|].
  cbn [sorted_desc fold_right]. fold (sorted_desc items).
  rewrite <- insert_desc_perm. apply perm_skip. exact IH.
Qed.

Lemma insert_desc_sorted (e : string * Q) (l : list (string * Q)) :
  StronglySorted desc l -> StronglySorted desc (insert_desc e l).
Proof.
  induction 1 as [|h t Hsorted IH Hall]; cbn [insert_desc].
  - constructor; constructor.
  - destruct (Qlt_le_dec (snd e) (snd h)) as [Hlt|Hle].
    + constructor; [exact IH|].
      rewrite <- (insert_desc_perm e t). constructor; [|exact Hall].
      unfold desc. lra.
    + constructor; [constructor; assumption|].
      constructor; [exact Hle|].
      eapply Forall_impl; [exact Hall|].
      intros x Hx. unfold desc in *. lra.
Qed.

Lemma sorted_desc_sorted (items : list (string * Q)) :
  StronglySorted desc (sorted_desc items).
Proof.
  induction items as [|e items IH]; [constructor|].
  cbn [sorted_desc fold_right]. apply insert_desc_sorted. exact IH.
Qed.

Lemma sorted_desc_length (items : list (string * Q)) :
  length (sorted_desc items) = length items.
Proof. symmetry. apply Permutation_length, sorted_desc_perm. Qed.

End LoopFacts.

(** C1, as the code has it. The per-activity table is a heading followed
    by one "key: value" line per entry, in descending order of value
    (entries of equal value in dictionary order).  No entry is left out:
    when the cursor, lowered by a row, is below [bottom_m + 2*cm], the
    page is broken and the next row is drawn at the top of a new page. *)
Theorem activity_table_is_paginated
    (surface : list Pdf.op -> Pdf.op -> option string)
    (HexColor : string -> option Pdf.Color)
    (a : Pdf.args) (rows : dict Q) :
  Observe.never_raises surface ->
  Pdf.per_activity a = Some rows ->
  rows <> [] ->
  forall st, exists st' ops,
    let y := (Pdf.cursor st - 0.2 * Pdf.cm)%Q in
    let top := (Pdf.height - Pdf.top_m a)%Q in
    let mark := (Pdf.bottom_m a + 2 * Pdf.cm)%Q in
    let step := (0.45 * Pdf.cm)%Q in
    Pdf.activity_section surface HexColor a st = (st', Pdf.Ret tt)
    /\ Pdf.canvas st'
       = (Pdf.canvas st
          ++ [ Pdf.SetFont "Helvetica-Bold" 12;
               Pdf.DrawString (Pdf.left a) y
                 "Per-activity emissions (kg CO₂):";
               Pdf.SetFont "Helvetica" 11 ]
          ++ ops)%list
    /\ sublist
         (zip_with (Pdf.DrawString (Pdf.left a))
            (Observe.paged_positions top mark step (y - 0.6 * Pdf.cm)
               (length rows))
            (map Pdf.key_value (Pdf.sorted_desc rows)))
         ops
    /\ Observe.pages_broken ops
       = Observe.page_breaks top mark step (y - 0.6 * Pdf.cm) (length rows)
    /\ StronglySorted Observe.desc (Pdf.sorted_desc rows)
    /\ Permutation rows (Pdf.sorted_desc rows).
Proof.
  intros R Hper Hrows st. cbv zeta.
  unfold Pdf.activity_section. rewrite Hper.
  destruct rows as [|r rows']; [contradiction|].
  cbn [Pdf.nonempty default from_option id]. set (rows := r :: rows').
  change (Pdf.for_each (Pdf.sorted_desc rows)
            (Pdf.activity_line surface HexColor a))
    with (Pdf.for_each (Pdf.sorted_desc rows)
            (fun e => Observe.paged_line surface HexColor a (0.45 * Pdf.cm)
                        (Pdf.key_value e))).
  rewrite <- (LoopFacts.for_each_map Pdf.key_value
                (Observe.paged_line surface HexColor a (0.45 * Pdf.cm))).
  rewrite RunFacts.bind_run. cbv beta iota delta [Pdf.sub_y].
  rewrite RunFacts.bind_run, DocFacts.emit_run by exact R.
  rewrite RunFacts.bind_run. cbv beta iota delta [Pdf.get_y].
  cbn [Pdf.canvas Pdf.cursor].
  rewrite RunFacts.bind_run, DocFacts.emit_run by exact R.
  rewrite RunFacts.bind_run. cbv beta iota delta [Pdf.sub_y].
  cbn [Pdf.canvas Pdf.cursor].
  rewrite RunFacts.bind_run, DocFacts.emit_run by exact R.
  cbn [Pdf.canvas Pdf.cursor].
  match goal with
  | |- context [Pdf.for_each ?l ?f ?s] =>
      destruct (LoopFacts.paged_loop_run surface HexColor a R
                  (0.45 * Pdf.cm) l s)
        as (st' & ops & Hrun & Hcanvas & Hsub & _ & Hpages)
  end.
  exists st', ops. split; [exact Hrun|].
  rewrite length_map, LoopFacts.sorted_desc_length in Hsub, Hpages.
  cbn [Pdf.canvas Pdf.cursor] in Hcanvas, Hsub, Hpages.
  split; [|split; [exact Hsub|split; [exact Hpages|split]]].
  - rewrite Hcanvas. rewrite <- !app_assoc. reflexivity.
  - apply LoopFacts.sorted_desc_sorted.
  - apply LoopFacts.sorted_desc_perm.
Qed.

Lemma activity_table_witness :
  Observe.never_raises Sample.reliable
  /\ Pdf.per_activity Sample.long_table = Some Sample.thirty_rows
  /\ Sample.thirty_rows <> []
  /\ exists st',
       Pdf.activity_section Sample.reliable Sample.HexColor
         Sample.long_table Pdf.fresh = (st', Pdf.Ret tt).
Proof.
  assert (R : Observe.never_raises Sample.reliable)
    by (intros c o; reflexivity).
  assert (Hrows : Sample.thirty_rows <> []) by (vm_compute; discriminate).
  split; [exact R|]. split; [reflexivity|]. split; [exact Hrows|].
  destruct (activity_table_is_paginated Sample.reliable Sample.HexColor
              Sample.long_table Sample.thirty_rows R eq_refl Hrows Pdf.fresh)
    as (st' & ops & Hrun & _).
  exists st'. exact Hrun.
Defined.

(** C1 as stated fails: the thirty rows of this table do not fit on the
    first page, a page break is made inside the table, and the last
    seven rows are drawn on the second page instead of being left out. *)
Lemma activity_table_continues_on_next_page :
  option_map (fun doc =>
                (Observe.pages_broken doc,
                 Observe.drawn_strings (Observe.after_first_break doc)))
    (fst (Sample.build false Sample.long_table))
  = Some (2%nat,
          [ "activity24: 16.00"; "activity25: 15.00"; "activity26: 14.00";
            "activity27: 13.00"; "activity28: 12.00"; "activity29: 11.00";
            "activity30: 10.00" ]).
Proof. vm_compute. reflexivity. Qed.

(** C2, as the code has it. In the summary, tip and per-activity loops
    the test follows the drawing: a line is drawn at the cursor, the
    cursor is lowered, and if it is then below [bottom_m + 2*cm] the page
    is broken and the cursor restarts at [height - top_m].  So when a
    fresh page starts at or above that mark and the loop is entered at or
    above it, every line of the loop is drawn at or above
    [bottom_m + 2*cm], and the loop leaves the cursor there too. *)
Theorem paged_lines_stay_above_mark
    (surface : list Pdf.op -> Pdf.op -> option string)
    (HexColor : string -> option Pdf.Color)
    (a : Pdf.args) (step : Q) (texts : list string) (st : Pdf.state) :
  Observe.never_raises surface ->
  Pdf.bottom_m a + 2 * Pdf.cm <= Pdf.height - Pdf.top_m a ->
  Pdf.bottom_m a + 2 * Pdf.cm <= Pdf.cursor st ->
  let top := (Pdf.height - Pdf.top_m a)%Q in
  let mark := (Pdf.bottom_m a + 2 * Pdf.cm)%Q in
  let ys :=
    Observe.paged_positions top mark step (Pdf.cursor st) (length texts) in
  Pdf.paragraph_line surface HexColor a
  = Observe.paged_line surface HexColor a (0.5 * Pdf.cm)
  /\ (forall e,
        Pdf.activity_line surface HexColor a e
        = Observe.paged_line surface HexColor a (0.45 * Pdf.cm)
            (Pdf.key_value e))
  /\ exists st' ops,
       Pdf.for_each texts (Observe.paged_line surface HexColor a step) st
       = (st', Pdf.Ret tt)
       /\ Pdf.canvas st' = (Pdf.canvas st ++ ops)%list
       /\ sublist (zip_with (Pdf.DrawString (Pdf.left a)) ys texts) ops
       /\ Forall (fun y => mark <= y) ys
       /\ mark <= Pdf.cursor st'.
Proof.
  intros R Htop Hentry. cbv zeta.
  split; [reflexivity|]. split; [intros e; reflexivity|].
  destruct (LoopFacts.paged_loop_run surface HexColor a R step texts st)
    as (st' & ops & Hrun & Hcanvas & Hsub & Hcursor & _).
  destruct (LoopFacts.paged_positions_above
              (Pdf.height - Pdf.top_m a) (Pdf.bottom_m a + 2 * Pdf.cm)
              step (Pdf.cursor st) (length texts) Htop Hentry)
    as [Hall Hleft].
  exists st', ops. split; [exact Hrun|]. split; [exact Hcanvas|].
  split; [exact Hsub|]. split; [exact Hall|].
  rewrite Hcursor. exact Hleft.
Qed.

Lemma paged_lines_witness :
  Observe.never_raises Sample.reliable
  /\ Pdf.bottom_m Sample.scenario + 2 * Pdf.cm
     <= Pdf.height - Pdf.top_m Sample.scenario
  /\ Pdf.bottom_m Sample.scenario + 2 * Pdf.cm
     <= Pdf.cursor (Pdf.State [] (Pdf.height - Pdf.top_m Sample.scenario))
  /\ exists st' ops,
       Pdf.for_each ["All"; "good"]
         (Observe.paged_line Sample.reliable Sample.HexColor Sample.scenario
            (0.5 * Pdf.cm))
         (Pdf.State [] (Pdf.height - Pdf.top_m Sample.scenario))
       = (st', Pdf.Ret tt)
       /\ Pdf.canvas st' = ([] ++ ops)%list.
Proof.
  assert (R : Observe.never_raises Sample.reliable)
    by (intros c o; reflexivity).
  assert (Htop : Pdf.bottom_m Sample.scenario + 2 * Pdf.cm
                 <= Pdf.height - Pdf.top_m Sample.scenario)
    by (apply Qle_bool_iff; vm_compute; reflexivity).
  split; [exact R|]. split; [exact Htop|]. split; [exact Htop|].
  destruct (paged_lines_stay_above_mark Sample.reliable Sample.HexColor
              Sample.scenario (0.5 * Pdf.cm) ["All"; "good"]
              (Pdf.State [] (Pdf.height - Pdf.top_m Sample.scenario))
              R Htop Htop)
    as (_ & _ & st' & ops & Hrun & Hcanvas & _).
  exists st', ops. split; [exact Hrun|exact Hcanvas].
Defined.

(** C2 as stated fails. With the default margins, one KPI line and a
    summary of 23 lines, the first row of the per-activity table is drawn
    below the bottom margin, and the page is broken only after it.  With
    a pie chart after a summary of 12 lines, the heading of the table and
    its row are drawn below the bottom margin, the row below the lower
    edge of the page. *)
Lemma text_line_below_bottom_margin :
  option_map (Observe.drawn_below (Pdf.bottom_m Sample.long_summary))
    (fst (Sample.build false Sample.long_summary))
  = Some ["bus_km: 2.00"]
  /\ option_map (Observe.drawn_below (Pdf.bottom_m Sample.pie_low))
       (fst (Sample.build true Sample.pie_low))
     = Some ["Per-activity emissions (kg CO₂):"; "bus_km: 2.00"]
  /\ option_map (Observe.drawn_below 0)
       (fst (Sample.build true Sample.pie_low))
     = Some ["bus_km: 2.00"].
Proof. split; [|split]; vm_compute; reflexivity. Qed.

(** ** The category breakdown *)

Module CategoryFacts.
Import Pdf Observe RunFacts DocFacts.

Section Pie.

Variable surface : list op -> op -> option string.
Variable mpl_ok : bool.
Variable plot_pie : option string -> option string -> dict Q -> option Image.
Variable a : args.
Hypothesis R : never_raises surface.

(** The pie chart adds one image or nothing; an image only when the pie
    is asked for, matplotlib is there and the values sum to more than 0. *)
Lemma pie_chart_run (pc : dict Q) (st : state) :
  exists st' pie,
    pie_chart surface mpl_ok plot_pie a pc st = (st', Ret tt)
    /\ canvas st' = (canvas st ++ pie)%list
    /\ Forall (fun o => is_image o = true) pie
    /\ (length pie <= 1)%nat
    /\ (pie <> [] ->
        include_pie a = true /\ mpl_ok = true
        /\ 0 < Num.Qsum (map snd pc))
    /\ (forall img,
          include_pie a = true -> mpl_ok = true ->
          0 < Num.Qsum (map snd pc) ->
          plot_pie (chart_bg_hex a) (text_hex a) pc = Some img ->
          pie = [DrawImage img (right a - img_width) (cursor st + 0.5 * cm)
                   img_width img_height]).
Proof.
  unfold pie_chart, pass.
  destruct (include_pie a); cbn [andb];
    [destruct mpl_ok|];
    try (exists st, []; split; [reflexivity|];
         split; [symmetry; apply app_nil_r|]; split; [constructor|];
         split; [cbn; lia|]; split; [intros H; contradiction|];
         intros; discriminate).
  unfold try_except.
  destruct (Qlt_le_dec 0 (Num.Qsum (map snd pc))) as [Hpos|Hneg].
  - destruct (plot_pie (chart_bg_hex a) (text_hex a) pc) as [img|].
    + rewrite bind_run. cbv beta iota delta [get_y].
      rewrite bind_run, emit_run by exact R.
      cbv beta iota delta [sub_y]. cbn [canvas cursor].
      eexists. eexists. split; [reflexivity|]. cbn [canvas].
      split; [reflexivity|].
      split; [constructor; [reflexivity|constructor]|].
      split; [cbn; lia|]. split; [intros _; auto|].
      intros img' _ _ _ Himg. injection Himg as <-. reflexivity.
    + exists st, []. split; [reflexivity|].
      split; [symmetry; apply app_nil_r|]. split; [constructor|].
      split; [cbn; lia|]. split; [intros H; contradiction|].
      intros; discriminate.
  - exists st, []. split; [reflexivity|].
    split; [symmetry; apply app_nil_r|]. split; [constructor|].
    split; [cbn; lia|]. split; [intros H; contradiction|].
    intros img _ _ Hpos. exfalso. lra.
Qed.

End Pie.

End CategoryFacts.

(** C5, as the code has it. The category breakdown is a heading followed
    by "category: value" lines with two decimals, in descending order of
    value; the list always starts but stops after the first line that
    leaves the cursor below [bottom_m + 6*cm], so only the first [k]
    entries are drawn.  After the list comes one pie image or nothing,
    and an image only if the pie is asked for, matplotlib is available
    and the values sum to more than zero. *)
Theorem category_list_and_pie
    (surface : list Pdf.op -> Pdf.op -> option string) (mpl_ok : bool)
    (plot_pie : option string -> option string -> dict Q -> option Pdf.Image)
    (a : Pdf.args) (pc : dict Q) :
  Observe.never_raises surface ->
  Pdf.per_category a = Some pc ->
  pc <> [] ->
  forall st, exists st' k pie,
    let y := (Pdf.cursor st - 0.2 * Pdf.cm)%Q in
    let mark := (Pdf.bottom_m a + 6 * Pdf.cm)%Q in
    let step := (0.45 * Pdf.cm)%Q in
    Pdf.category_section surface mpl_ok plot_pie a st = (st', Pdf.Ret tt)
    /\ Pdf.canvas st'
       = (Pdf.canvas st
          ++ [ Pdf.SetFont "Helvetica-Bold" 12;
               Pdf.DrawString (Pdf.left a) y "Per-category (kg CO₂):";
               Pdf.SetFont "Helvetica" 11 ]
          ++ Observe.rows_from (Pdf.left a) (y - 0.6 * Pdf.cm) step
               (map Pdf.key_value (take k (Pdf.sorted_desc pc)))
          ++ pie)%list
    /\ (1 <= k <= length pc)%nat
    /\ ((k < length pc)%nat ->
        Observe.lowered (y - 0.6 * Pdf.cm) step k < mark)
    /\ (forall j, (1 <= j < k)%nat ->
          mark <= Observe.lowered (y - 0.6 * Pdf.cm) step j)
    /\ Forall (fun o => Observe.is_image o = true) pie
    /\ (length pie <= 1)%nat
    /\ (pie <> [] ->
        Pdf.include_pie a = true /\ mpl_ok = true
        /\ 0 < Num.Qsum (map snd pc))
    /\ StronglySorted Observe.desc (Pdf.sorted_desc pc)
    /\ Permutation pc (Pdf.sorted_desc pc).
Proof.
  intros R Hper Hpc st. cbv zeta.
  unfold Pdf.category_section. rewrite Hper.
  destruct pc as [|c pc']; [contradiction|].
  cbn [Pdf.nonempty default from_option id]. set (pc := c :: pc').
  rewrite RunFacts.bind_run. cbv beta iota delta [Pdf.sub_y].
  rewrite RunFacts.bind_run, DocFacts.emit_run by exact R.
  rewrite RunFacts.bind_run. cbv beta iota delta [Pdf.get_y].
  cbn [Pdf.canvas Pdf.cursor].
  rewrite RunFacts.bind_run, DocFacts.emit_run by exact R.
  rewrite RunFacts.bind_run. cbv beta iota delta [Pdf.sub_y].
  cbn [Pdf.canvas Pdf.cursor].
  rewrite RunFacts.bind_run, DocFacts.emit_run by exact R.
  cbn [Pdf.canvas Pdf.cursor]. rewrite RunFacts.bind_run.
  match goal with
  | |- context [Pdf.category_lines surface a ?l ?s] =>
      destruct (LoopFacts.category_lines_run surface a R l s)
        as (k & st1 & Hrun & Hcanvas & Hcursor & Hlen & Hone & Hcut & Habove)
  end.
  rewrite Hrun. cbn [Pdf.canvas Pdf.cursor] in Hcanvas, Hcursor, Habove.
  destruct (CategoryFacts.pie_chart_run surface mpl_ok plot_pie a R pc st1)
    as (st' & pie & Hpie & Hcanvas' & Himg & Hatmost & Honly & _).
  exists st', k, pie. split; [exact Hpie|].
  rewrite LoopFacts.sorted_desc_length in Hlen, Hcut.
  split; [|split; [|split; [|split; [exact Habove|]]]].
  - rewrite Hcanvas', Hcanvas. rewrite <- !app_assoc. reflexivity.
  - split; [|exact Hlen]. apply Hone. intros Hnil.
    apply (f_equal (@length _)) in Hnil.
    rewrite LoopFacts.sorted_desc_length in Hnil. discriminate Hnil.
  - intros Hk. rewrite <- Hcursor. apply Hcut. exact Hk.
  - split; [exact Himg|]. split; [exact Hatmost|]. split; [exact Honly|].
    split; [apply LoopFacts.sorted_desc_sorted|].
    apply LoopFacts.sorted_desc_perm.
Qed.

Lemma category_list_witness :
  Observe.never_raises Sample.reliable
  /\ Pdf.per_category Sample.scenario = Some Sample.categories
  /\ Sample.categories <> []
  /\ exists st',
       Pdf.category_section Sample.reliable false Sample.plot_pie
         Sample.scenario Pdf.fresh = (st', Pdf.Ret tt).
Proof.
  assert (R : Observe.never_raises Sample.reliable)
    by (intros c o; reflexivity).
  assert (Hpc : Sample.categories <> []) by discriminate.
  split; [exact R|]. split; [reflexivity|]. split; [exact Hpc|].
  destruct (category_list_and_pie Sample.reliable false Sample.plot_pie
              Sample.scenario Sample.categories R eq_refl Hpc Pdf.fresh)
    as (st' & k & pie & Hrun & _).
  exists st'. exact Hrun.
Defined.

(** C5 as stated fails: after a summary of 23 lines the category list of
    the spec's own scenario stops after its first entry.  In the scenario
    itself, with a short summary, the three entries are drawn, in
    descending order, and no image. *)
Lemma category_list_can_be_cut_short :
  option_map (fun doc =>
                (Observe.draws_text "Energy: 12.50" doc,
                 Observe.draws_text "Transport: 3.00" doc,
                 Observe.draws_text "Meals: 1.50" doc))
    (fst (Sample.build false Sample.long_summary))
  = Some (true, false, false)
  /\ option_map (fun doc =>
                   (Observe.drawn_strings doc, existsb Observe.is_image doc))
       (fst (Sample.build false Sample.scenario))
     = Some ([ "Sustainability Tracker — Eco Tips Summary";
               "Date: 2025-01-01    Total: 17.00 kg CO2    AI source: fallback";
               "Today's Summary:"; "All good";
               "Personalized Tip:"; "Cycle more";
               "Per-category (kg CO₂):";
               "Energy: 12.50"; "Transport: 3.00"; "Meals: 1.50" ],
             false).
Proof. split; vm_compute; reflexivity. Qed.

(** * Further facts *)

(** ** Validation *)

Module ValidationFacts.
Import Validation.

Section WithParser.

Variable parse_float : string -> option pyfloat.

Lemma find_invalid_fields_from (d : dict value) (bad : list string) :
  fold_left (invalid_step parse_float) d bad
  = (bad ++ map fst
              (List.filter (fun kv => invalid parse_float (snd kv)) d))%list.
Proof.
  revert bad. induction d as [|[k v] d IH]; intros bad; cbn [fold_left].
  - cbn. symmetry. apply app_nil_r.
  - rewrite IH. cbn [List.filter snd].
    unfold invalid_step, invalid. cbn [fst snd].
    destruct (_coerce_float parse_float v) as [fv|];
      [destruct (lt0 fv)|]; cbn [map fst];
      rewrite <- ?app_assoc; reflexivity.
Qed.

Lemma any_positive_spec (values : list value) :
  any_positive parse_float values = true
  <-> exists v, In v values /\ positive parse_float v = true.
Proof.
  induction values as [|v rest IH]; cbn [any_positive].
  - split; [discriminate|]. intros (v & [] & _).
  - unfold positive at 1.
    destruct (_coerce_float parse_float v) as [fv|] eqn:E.
    + destruct (gt0 fv) eqn:G.
      * split; [intros _|reflexivity].
        exists v. split; [left; reflexivity|]. unfold positive.
        rewrite E. exact G.
      * rewrite IH. split.
        -- intros (w & Hin & Hw). exists w. split; [right; exact Hin|exact Hw].
        -- intros (w & [<-|Hin] & Hw).
           ++ unfold positive in Hw. rewrite E, G in Hw. discriminate Hw.
           ++ exists w. split; assumption.
    + rewrite IH. split.
      * intros (w & Hin & Hw). exists w. split; [right; exact Hin|exact Hw].
      * intros (w & [<-|Hin] & Hw).
        -- unfold positive in Hw. rewrite E in Hw. discriminate Hw.
        -- exists w. split; assumption.
Qed.

End WithParser.

End ValidationFacts.

(** X1. [find_invalid_fields] returns, in the order of the dictionary,
    exactly the keys whose value is not a number ([float] raises) or is a
    negative number; [nan] is not reported. *)
Theorem find_invalid_fields_lists_bad_keys
    (parse_float : string -> option Validation.pyfloat)
    (user_data : dict Validation.value) :
  Validation.find_invalid_fields parse_float user_data
  = map fst
      (List.filter (fun kv => Validation.invalid parse_float (snd kv))
         user_data)
  /\ Validation.invalid parse_float
       (Validation.VFloat Validation.NaN) = false.
Proof.
  split; [|reflexivity].
  unfold Validation.find_invalid_fields.
  rewrite ValidationFacts.find_invalid_fields_from. reflexivity.
Qed.

(** X2. [should_generate_tip] is true exactly when no field is invalid
    (non-numeric or negative) and at least one field is a number above
    zero.  So one bad field vetoes the tip whatever else is logged, and
    an empty or all-zero form gets no tip. *)
Theorem should_generate_tip_iff
    (parse_float : string -> option Validation.pyfloat)
    (user_data : dict Validation.value) :
  Validation.should_generate_tip parse_float user_data = true
  <-> (forall k v, In (k, v) user_data ->
         Validation.invalid parse_float v = false)
      /\ (exists k v, In (k, v) user_data
            /\ Validation.positive parse_float v = true).
Proof.
  unfold Validation.should_generate_tip, Validation.find_invalid_fields,
    Validation.has_meaningful_input.
  rewrite ValidationFacts.find_invalid_fields_from. cbn [app].
  assert (Hpos : Validation.any_positive parse_float (map snd user_data)
                 = true
                 <-> exists k v, In (k, v) user_data
                       /\ Validation.positive parse_float v = true).
  { rewrite ValidationFacts.any_positive_spec. split.
    - intros (v & Hin & Hv). apply in_map_iff in Hin as ([k v'] & <- & Hin).
      exists k, v'. split; assumption.
    - intros (k & v & Hin & Hv). exists v. split; [|exact Hv].
      apply in_map_iff. exists (k, v). split; [reflexivity|exact Hin]. }
  destruct (List.filter
              (fun kv => Validation.invalid parse_float (snd kv)) user_data)
    as [|bad rest] eqn:E; cbn [map].
  - rewrite Hpos. split; [intros H; split; [|exact H]|intros [_ H]; exact H].
    intros k v Hin.
    destruct (Validation.invalid parse_float v) eqn:Hv; [|reflexivity].
    assert (Hf : In (k, v)
                   (List.filter
                      (fun kv => Validation.invalid parse_float (snd kv))
                      user_data))
      by (apply filter_In; split; [exact Hin|exact Hv]).
    rewrite E in Hf. destruct Hf.
  - split; [discriminate|]. intros [Hall _]. exfalso.
    assert (Hf : In bad
                   (List.filter
                      (fun kv => Validation.invalid parse_float (snd kv))
                      user_data))
      by (rewrite E; left; reflexivity).
    apply filter_In in Hf as [Hin Hbad]. destruct bad as [k v].
    cbn [snd] in Hbad. rewrite (Hall k v Hin) in Hbad. discriminate Hbad.
Qed.

(** ** The history file *)

Module HistoryFacts.
Import History.

Lemma row_amounts_returns (activity_data : gmap string Emissions.pyval)
    (keys : list string) :
  exists cells,
    row_amounts activity_data keys = Some cells /\ map fst cells = keys.
Proof.
  induction keys as [|k keys (cells & Hcells & Hkeys)];
    cbn [row_amounts].
  - exists []. split; reflexivity.
  - destruct (EmissionsFacts.amount_spec activity_data k) as (q & Hq & _).
    rewrite Hq, Hcells. cbn [mbind option_bind].
    exists ((k, q) :: cells). split; [reflexivity|].
    cbn [map fst]. rewrite Hkeys. reflexivity.
Qed.

Lemma upserted_in (df : DataFrame) (d : Z) (r : row) (x : row) :
  date r = d ->
  In x (upserted df d r) <-> x = r \/ (In x df /\ date x <> d).
Proof.
  intros Hr. unfold upserted. destruct df as [|h t]; cbn [In].
  - split; [intros [<-|[]]; left; reflexivity|].
    intros [->|[[] _]]. left. reflexivity.
  - set (df := h :: t).
    change (h = x \/ In x t) with (In x df).
    destruct (existsb (dated d) df) eqn:E.
    + rewrite in_map_iff. split.
      * intros (y & Hy & Hin). unfold dated in Hy.
        destruct (Z.eqb_spec (date y) d) as [Hd|Hd].
        -- left. symmetry. exact Hy.
        -- right. subst y. split; assumption.
      * intros [->|[Hin Hd]].
        -- apply existsb_exists in E as (y & Hin & Hy). exists y.
           rewrite Hy. split; [reflexivity|exact Hin].
        -- exists x. split; [|exact Hin]. unfold dated.
           destruct (Z.eqb_spec (date x) d); [contradiction|reflexivity].
    + rewrite in_app_iff. cbn [In]. split.
      * intros [Hin|[<-|[]]]; [right|left; reflexivity].
        split; [exact Hin|]. intros Hd.
        assert (Hex : existsb (dated d) df = true)
          by (apply existsb_exists; exists x; split;
              [exact Hin|unfold dated; apply Z.eqb_eq; exact Hd]).
        rewrite E in Hex. discriminate Hex.
      * intros [->|[Hin _]]; [right; left; reflexivity|left; exact Hin].
Qed.

Section WithSort.

Variable sort_values : DataFrame -> DataFrame.
Hypothesis sort_permutes : forall df, Permutation (sort_values df) df.

Lemma save_entry_run (d : Z) (activity_data : gmap string Emissions.pyval)
    (total : Q) (f : file) :
  exists cells,
    map fst cells = Emissions.ALL_KEYS
    /\ save_entry sort_values d activity_data total f
       = Some (Stored (sort_values
                         (upserted (load_history f) d (Row d cells total)))).
Proof.
  destruct (row_amounts_returns activity_data Emissions.ALL_KEYS)
    as (cells & Hcells & Hkeys).
  exists cells. split; [exact Hkeys|].
  unfold save_entry. rewrite Hcells. reflexivity.
Qed.

Lemma saved_in (df : DataFrame) (d : Z) (r x : row) :
  date r = d ->
  In x (sort_values (upserted df d r))
  <-> x = r \/ (In x df /\ date x <> d).
Proof.
  intros Hr. rewrite <- (upserted_in df d r x Hr).
  split; apply Permutation_in; [|symmetry]; apply sort_permutes.
Qed.

End WithSort.

Lemma insert_by_date_permutes (r : row) (l : DataFrame) :
  Permutation (SampleHistory.insert_by_date r l) (r :: l).
Proof.
  induction l as [|h t IH]; cbn [SampleHistory.insert_by_date];
    [reflexivity|].
  destruct (date r <? date h)%Z; [reflexivity|].
  rewrite IH. apply perm_swap.
Qed.

Lemma sample_sort_permutes (df : DataFrame) :
  Permutation (SampleHistory.sort_values df) df.
Proof.
  induction df as [|r df IH]; [reflexivity|].
  cbn [SampleHistory.sort_values fold_right].
  rewrite insert_by_date_permutes. apply perm_skip. exact IH.
Qed.

End HistoryFacts.

(** X3. Saving an entry never raises and can be read back: whatever the
    file held (nothing, garbage, a frame with or without that date),
    after [save_entry] for a date the history answers that entry's total
    to [get_yesterday_total] asked on the following day.  The sort only
    has to rearrange rows. *)
Theorem save_entry_then_yesterday_total
    (sort_values : History.DataFrame -> History.DataFrame)
    (date_val : Z) (activity_data : gmap string Emissions.pyval)
    (total : Q) (f : History.file) :
  (forall df, Permutation (sort_values df) df) ->
  exists f',
    History.save_entry sort_values date_val activity_data total f = Some f'
    /\ History.get_yesterday_total (History.load_history f')
         (date_val + 1)%Z = total.
Proof.
  intros Hsort.
  destruct (HistoryFacts.save_entry_run sort_values date_val activity_data
              total f) as (cells & _ & Hsave).
  eexists. split; [exact Hsave|]. cbn [History.load_history].
  set (r := History.Row date_val cells total).
  set (df := sort_values
               (History.upserted (History.load_history f) date_val r)).
  assert (Hin : forall x, In x df <->
                  x = r \/ (In x (History.load_history f)
                            /\ History.date x <> date_val))
    by (intros x; apply HistoryFacts.saved_in; [exact Hsort|reflexivity]).
  unfold History.get_yesterday_total.
  replace (date_val + 1 - 1)%Z with date_val by lia.
  destruct df as [|h t] eqn:Edf.
  - exfalso. apply (proj2 (Hin r)). left. reflexivity.
  - rewrite <- Edf.
    destruct (List.filter (History.dated date_val) df) as [|x rest] eqn:E.
    + exfalso.
      assert (Hr : In r (List.filter (History.dated date_val) df)).
      { apply filter_In. split.
        - rewrite Edf. apply Hin. left. reflexivity.
        - unfold History.dated. apply Z.eqb_eq. reflexivity. }
      rewrite E in Hr. destruct Hr.
    + assert (Hx : In x (List.filter (History.dated date_val) df))
        by (rewrite E; left; reflexivity).
      apply filter_In in Hx as [Hx Hd]. rewrite Edf in Hx.
      apply Hin in Hx as [->|[_ Hne]]; [reflexivity|].
      unfold History.dated in Hd. apply Z.eqb_eq in Hd. contradiction.
Qed.

Lemma save_entry_witness :
  (forall df, Permutation (SampleHistory.sort_values df) df)
  /\ exists f',
       History.save_entry SampleHistory.sort_values 739001
         SampleHistory.bus_ride 4.2 SampleHistory.two_days = Some f'
       /\ History.get_yesterday_total (History.load_history f') 739002
          = 4.2.
Proof.
  split; [exact HistoryFacts.sample_sort_permutes|].
  exact (save_entry_then_yesterday_total SampleHistory.sort_values 739001
           SampleHistory.bus_ride 4.2 SampleHistory.two_days
           HistoryFacts.sample_sort_permutes).
Defined.

(** ** Streaks over a growing history *)

Module StreakMore.
Import Streak.

(** What [compute_streak] returns is fixed by the days it counts. *)
Lemma compute_streak_is (df : DataFrame) (d : Z) (n : nat) :
  (forall i, (0 <= i < Z.of_nat n)%Z -> ((d - i)%Z ∈ df)) ->
  ((d - Z.of_nat n)%Z ∉ df) ->
  forall fuel, (length df < fuel)%nat -> compute_streak fuel df d = Some n.
Proof.
  intros Hall Hstop fuel Hfuel. destruct df as [|x df].
  - destruct n as [|n]; [reflexivity|]. exfalso.
    apply (not_elem_of_nil (d - 0)%Z). apply Hall. lia.
  - set (rows := x :: df) in *.
    change (compute_streak fuel rows d)
      with (streak_loop fuel (list_to_set rows) 0 d).
    pose proof (StreakFacts.size_dayset rows) as Hsz.
    pose proof (StreakFacts.size_upto (list_to_set rows) d) as Hup.
    destruct (StreakFacts.streak_loop_spec (list_to_set rows) fuel 0 d)
      as (m & Hrun & Hall' & Hstop'); [lia|].
    rewrite Hrun. f_equal. cbn [Nat.add].
    destruct (Nat.lt_trichotomy m n) as [Hlt|[Heq|Hgt]]; [|exact Heq|].
    + exfalso. apply Hstop'. apply elem_of_list_to_set. apply Hall. lia.
    + exfalso. apply Hstop.
      assert (Hi : (0 <= Z.of_nat n < Z.of_nat m)%Z) by lia.
      specialize (Hall' _ Hi). apply elem_of_list_to_set in Hall'.
      exact Hall'.
Qed.

(** Every frame and day has such a count. *)
Lemma streak_exists (df : DataFrame) (d : Z) :
  exists n : nat,
    (forall i, (0 <= i < Z.of_nat n)%Z -> ((d - i)%Z ∈ df))
    /\ ((d - Z.of_nat n)%Z ∉ df)
    /\ (n <= length df)%nat.
Proof.
  pose proof (StreakFacts.size_dayset df) as Hsz.
  pose proof (StreakFacts.size_upto (list_to_set df) d) as Hup.
  destruct (StreakFacts.streak_loop_spec (list_to_set df)
              (S (length df)) 0 d) as (n & Hrun & Hall & Hstop); [lia|].
  exists n. split; [|split].
  - intros i Hi. specialize (Hall i Hi).
    apply elem_of_list_to_set in Hall. exact Hall.
  - intros Hin. apply Hstop. apply elem_of_list_to_set. exact Hin.
  - clear Hall Hstop Hsz Hup. cbn [Nat.add] in Hrun.
    assert (Hbound : forall fuel k c r,
              streak_loop fuel (list_to_set df) k c = Some r ->
              (r < k + fuel)%nat).
    { induction fuel as [|fuel IH]; intros k c r H; [discriminate H|].
      cbn [streak_loop] in H.
      destruct (decide (c ∈ (list_to_set df : gset Z))).
      - apply IH in H. lia.
      - injection H as <-. lia. }
    apply Hbound in Hrun. lia.
Qed.

End StreakMore.

(** X4. A streak is never longer than the history has rows, and a larger
    history never gives a shorter streak for the same day. *)
Theorem compute_streak_bounded_and_monotone
    (df more : Streak.DataFrame) (date_val : Z) :
  exists n m : nat,
    (forall fuel, (length df < fuel)%nat ->
       Streak.compute_streak fuel df date_val = Some n)
    /\ (forall fuel, (length (df ++ more)%list < fuel)%nat ->
          Streak.compute_streak fuel (df ++ more)%list date_val = Some m)
    /\ (n <= length df)%nat
    /\ (n <= m)%nat.
Proof.
  destruct (StreakMore.streak_exists df date_val)
    as (n & Hall & Hstop & Hlen).
  destruct (StreakMore.streak_exists (df ++ more)%list date_val)
    as (m & Hall' & Hstop' & _).
  exists n, m. split; [|split; [|split]].
  - apply StreakMore.compute_streak_is; assumption.
  - apply StreakMore.compute_streak_is; assumption.
  - exact Hlen.
  - destruct (Nat.le_gt_cases n m) as [Hle|Hgt]; [exact Hle|].
    exfalso. apply Hstop'. apply elem_of_app. left. apply Hall. lia.
Qed.

(** ** Saving and the rest of the history *)

Module UpsertFacts.
Import History.

Lemma filter_permutation {A} (f : A -> bool) (l l' : list A) :
  Permutation l l' -> Permutation (List.filter f l) (List.filter f l').
Proof.
  induction 1 as [|x l l' _ IH|x y l|l l' l'' _ IH1 _ IH2];
    cbn [List.filter].
  - reflexivity.
  - destruct (f x); [apply perm_skip|]; exact IH.
  - destruct (f x), (f y); try reflexivity. apply perm_swap.
  - etransitivity; eassumption.
Qed.

Section Replace.

Variable d : Z.
Variable r : row.
Hypothesis Hr : date r = d.

Local Abbreviation replace :=
  (map (fun x => if dated d x then r else x)).

Lemma dated_new : dated d r = true.
Proof. unfold dated. apply Z.eqb_eq. exact Hr. Qed.

Lemma replaced_dated (h : row) :
  dated d (if dated d h then r else h) = dated d h.
Proof.
  destruct (dated d h) eqn:Hd; [exact dated_new|exact Hd].
Qed.

Lemma replace_keeps_others (l : DataFrame) :
  List.filter (other_day d) (replace l) = List.filter (other_day d) l.
Proof.
  induction l as [|h t IH]; [reflexivity|]. cbn [map List.filter].
  destruct (dated d h) eqn:Hd; cbv beta iota.
  - replace (other_day d r) with false
      by (unfold other_day; rewrite dated_new; reflexivity).
    replace (other_day d h) with false
      by (unfold other_day; rewrite Hd; reflexivity).
    exact IH.
  - destruct (other_day d h); rewrite IH; reflexivity.
Qed.

Lemma replace_keeps_count (l : DataFrame) :
  length (List.filter (dated d) (replace l))
  = length (List.filter (dated d) l).
Proof.
  induction l as [|h t IH]; [reflexivity|]. cbn [map List.filter].
  rewrite replaced_dated.
  destruct (dated d h); cbv beta iota; cbn [length]; rewrite IH;
    reflexivity.
Qed.

Lemma dated_count (l : DataFrame) :
  if existsb (dated d) l
  then (1 <= length (List.filter (dated d) l))%nat
  else List.filter (dated d) l = [].
Proof.
  induction l as [|h t IH]; cbn [existsb List.filter]; [reflexivity|].
  destruct (dated d h); cbn [orb length]; [lia|exact IH].
Qed.

Lemma upserted_others (df : DataFrame) :
  List.filter (other_day d) (upserted df d r)
  = List.filter (other_day d) df.
Proof.
  assert (Hnew : other_day d r = false)
    by (unfold other_day; rewrite dated_new; reflexivity).
  unfold upserted. destruct df as [|h t].
  - cbn [List.filter]. rewrite Hnew. reflexivity.
  - destruct (existsb (dated d) (h :: t)).
    + apply replace_keeps_others.
    + rewrite List.filter_app. cbn [List.filter]. rewrite Hnew.
      apply app_nil_r.
Qed.

Lemma upserted_count (df : DataFrame) :
  length (List.filter (dated d) (upserted df d r))
  = Nat.max 1 (length (List.filter (dated d) df)).
Proof.
  unfold upserted. destruct df as [|h t].
  - cbn [List.filter]. rewrite dated_new. reflexivity.
  - pose proof (dated_count (h :: t)) as Hcount.
    destruct (existsb (dated d) (h :: t)).
    + rewrite replace_keeps_count. lia.
    + rewrite List.filter_app, Hcount. cbn [List.filter].
      rewrite dated_new. reflexivity.
Qed.

End Replace.

End UpsertFacts.

(** X5. [save_entry] touches one day only: the rows of every other date
    are the same rows as before (in some order), and the saved date is
    held by exactly one row if it was new, by as many rows as before if
    it was already there. *)
Theorem save_entry_keeps_other_days
    (sort_values : History.DataFrame -> History.DataFrame)
    (date_val : Z) (activity_data : gmap string Emissions.pyval)
    (total : Q) (f : History.file) :
  (forall df, Permutation (sort_values df) df) ->
  exists f',
    History.save_entry sort_values date_val activity_data total f = Some f'
    /\ Permutation
         (List.filter (fun x => negb (History.dated date_val x))
            (History.load_history f'))
         (List.filter (fun x => negb (History.dated date_val x))
            (History.load_history f))
    /\ length (List.filter (History.dated date_val)
                 (History.load_history f'))
       = Nat.max 1
           (length (List.filter (History.dated date_val)
                      (History.load_history f))).
Proof.
  intros Hsort.
  destruct (HistoryFacts.save_entry_run sort_values date_val activity_data
              total f) as (cells & _ & Hsave).
  eexists. split; [exact Hsave|]. cbn [History.load_history]. split.
  - etransitivity;
      [apply UpsertFacts.filter_permutation, Hsort|].
    change (fun x => negb (History.dated date_val x))
      with (History.other_day date_val).
    rewrite UpsertFacts.upserted_others by reflexivity. reflexivity.
  - rewrite (Permutation_length
               (UpsertFacts.filter_permutation (History.dated date_val)
                  _ _ (Hsort _))).
    apply UpsertFacts.upserted_count. reflexivity.
Qed.

Lemma save_entry_keeps_witness :
  (forall df, Permutation (SampleHistory.sort_values df) df)
  /\ exists f',
       History.save_entry SampleHistory.sort_values 739000
         SampleHistory.bus_ride 4.2 SampleHistory.two_days = Some f'
       /\ length (List.filter (History.dated 739000)
                    (History.load_history f')) = 1%nat.
Proof.
  split; [exact HistoryFacts.sample_sort_permutes|].
  destruct (save_entry_keeps_other_days SampleHistory.sort_values 739000
              SampleHistory.bus_ride 4.2 SampleHistory.two_days
              HistoryFacts.sample_sort_permutes)
    as (f' & Hsave & _ & Hcount).
  exists f'. split; [exact Hsave|]. exact Hcount.
Defined.

(** X6. Logging a day extends the streak of the day before by one:
    after [save_entry] for a date, [compute_streak] at that date is one
    more than it was at the previous day on the old history. *)
Theorem save_entry_extends_streak
    (sort_values : History.DataFrame -> History.DataFrame)
    (date_val : Z) (activity_data : gmap string Emissions.pyval)
    (total : Q) (f : History.file) :
  (forall df, Permutation (sort_values df) df) ->
  exists f' (n : nat),
    History.save_entry sort_values date_val activity_data total f = Some f'
    /\ (forall fuel,
          (length (History.load_history f) < fuel)%nat ->
          Streak.compute_streak fuel
            (History.dates (History.load_history f)) (date_val - 1)%Z
          = Some n)
    /\ (forall fuel,
          (length (History.load_history f') < fuel)%nat ->
          Streak.compute_streak fuel
            (History.dates (History.load_history f')) date_val
          = Some (S n)).
Proof.
  intros Hsort.
  destruct (HistoryFacts.save_entry_run sort_values date_val activity_data
              total f) as (cells & _ & Hsave).
  set (old := History.load_history f).
  set (r := History.Row date_val cells total) in *.
  set (new := sort_values (History.upserted old date_val r)) in *.
  destruct (StreakMore.streak_exists (History.dates old) (date_val - 1)%Z)
    as (n & Hall & Hstop & _).
  assert (Hdates : forall x,
            x ∈ History.dates new <-> x = date_val \/ x ∈ History.dates old).
  { intros x. unfold History.dates. rewrite !list_elem_of_In, !in_map_iff.
    split.
    - intros (y & <- & Hy).
      apply (HistoryFacts.saved_in sort_values Hsort old date_val r y
               eq_refl) in Hy as [->|[Hy Hne]].
      + left. reflexivity.
      + right. exists y. split; [reflexivity|exact Hy].
    - intros [->|(y & <- & Hy)].
      + exists r. split; [reflexivity|].
        apply (HistoryFacts.saved_in sort_values Hsort old date_val r r
                 eq_refl). left. reflexivity.
      + destruct (Z.eq_dec (History.date y) date_val) as [Hd|Hd].
        * exists r. split; [symmetry; exact Hd|].
          apply (HistoryFacts.saved_in sort_values Hsort old date_val r r
                   eq_refl). left. reflexivity.
        * exists y. split; [reflexivity|].
          apply (HistoryFacts.saved_in sort_values Hsort old date_val r y
                   eq_refl). right. split; assumption. }
  exists (History.Stored new), n. split; [exact Hsave|]. split.
  - intros fuel Hfuel. apply StreakMore.compute_streak_is;
      [exact Hall|exact Hstop|].
    unfold History.dates. rewrite length_map. exact Hfuel.
  - intros fuel Hfuel. cbn [History.load_history] in *.
    apply StreakMore.compute_streak_is.
    + intros i Hi. apply Hdates.
      destruct (Z.eq_dec i 0%Z) as [->|Hne]; [left; lia|right].
      replace (date_val - i)%Z with (date_val - 1 - (i - 1))%Z by lia.
      apply Hall. lia.
    + intros Hin. apply Hdates in Hin as [Heq|Hin]; [lia|].
      apply Hstop.
      replace (date_val - 1 - Z.of_nat n)%Z
        with (date_val - Z.of_nat (S n))%Z by lia.
      exact Hin.
    + unfold History.dates. rewrite length_map. exact Hfuel.
Qed.

Lemma save_entry_streak_witness :
  (forall df, Permutation (SampleHistory.sort_values df) df)
  /\ exists f' (n : nat),
       History.save_entry SampleHistory.sort_values 739001
         SampleHistory.bus_ride 4.2 SampleHistory.two_days = Some f'
       /\ forall fuel,
            (length (History.load_history f') < fuel)%nat ->
            Streak.compute_streak fuel
              (History.dates (History.load_history f')) 739001
            = Some (S n).
Proof.
  split; [exact HistoryFacts.sample_sort_permutes|].
  destruct (save_entry_extends_streak SampleHistory.sort_values 739001
              SampleHistory.bus_ride 4.2 SampleHistory.two_days
              HistoryFacts.sample_sort_permutes)
    as (f' & n & Hsave & _ & Hnew).
  exists f', n. split; [exact Hsave|exact Hnew].
Defined.

(** ** Badges *)

Module BadgesFacts.
Import Badges.

(** The badges, condition by condition, in the order they are appended. *)
Lemma award_badges_parts (today_total : Q) (streak : Z)
    (df : History.DataFrame) :
  award_badges today_total streak df
  = ((match df with [] => [] | _ :: _ => [consistency] end)
     ++ (if Qlt_le_dec today_total 20 then [low_impact] else [])
     ++ (if (3 <=? streak)%Z then [streak3] else [])
     ++ (if (7 <=? streak)%Z then [streak7] else [])
     ++ (if beats_average today_total df then [better10] else []))%list.
Proof.
  unfold award_badges, beats_average.
  destruct df as [|r df].
  - destruct (Qlt_le_dec today_total 20), (3 <=? streak)%Z,
      (7 <=? streak)%Z; reflexivity.
  - set (recent := tail7 (r :: df)).
    set (avg7 := match recent with
                 | [] => 0
                 | _ :: _ => mean (map History.total_kg recent)
                 end).
    destruct (Qlt_le_dec today_total 20), (3 <=? streak)%Z,
      (7 <=? streak)%Z, (negb (Qeq_bool avg7 0)),
      (Qlt_le_dec today_total (0.9 * avg7)); reflexivity.
Qed.

Lemma beats_average_mono (t t' : Q) (df : History.DataFrame) :
  t' <= t -> beats_average t df = true -> beats_average t' df = true.
Proof.
  unfold beats_average. destruct df as [|r df]; [intros _ H; exact H|].
  cbv zeta.
  set (avg7 := match tail7 (r :: df) with
               | [] => 0
               | _ :: _ => mean (map History.total_kg (tail7 (r :: df)))
               end).
  intros Hle H. apply andb_true_iff in H as [Hnz Hlt].
  apply andb_true_iff. split; [exact Hnz|].
  destruct (Qlt_le_dec t (0.9 * avg7)) as [Ht|Ht]; [|discriminate Hlt].
  destruct (Qlt_le_dec t' (0.9 * avg7)) as [Ht'|Ht']; [reflexivity|].
  exfalso. lra.
Qed.

Lemma optional_sublist {A} (b b' : bool) (x : A) :
  (b = true -> b' = true) ->
  sublist (if b then [x] else []) (if b' then [x] else []).
Proof.
  intros H. destruct b.
  - rewrite (H eq_refl). reflexivity.
  - apply sublist_nil_l.
Qed.

End BadgesFacts.

(** X7. Doing better never costs a badge: with the same history, a lower
    total and a longer streak earn every badge the higher total and the
    shorter streak earned, in the same order. *)
Theorem award_badges_monotone
    (today_total today_total' : Q) (streak streak' : Z)
    (df : History.DataFrame) :
  today_total' <= today_total ->
  (streak <= streak')%Z ->
  sublist (Badges.award_badges today_total streak df)
          (Badges.award_badges today_total' streak' df).
Proof.
  intros Htotal Hstreak. rewrite !BadgesFacts.award_badges_parts.
  repeat apply sublist_app.
  - reflexivity.
  - destruct (Qlt_le_dec today_total 20) as [Hlow|Hhigh];
      [|apply sublist_nil_l].
    destruct (Qlt_le_dec today_total' 20) as [Hlow'|Hhigh'];
      [reflexivity|]. exfalso. lra.
  - apply BadgesFacts.optional_sublist. intros H.
    apply Z.leb_le in H. apply Z.leb_le. lia.
  - apply BadgesFacts.optional_sublist. intros H.
    apply Z.leb_le in H. apply Z.leb_le. lia.
  - apply BadgesFacts.optional_sublist.
    apply BadgesFacts.beats_average_mono. exact Htotal.
Qed.

Lemma award_badges_monotone_witness :
  15 <= 25 /\ (2 <= 7)%Z
  /\ sublist (Badges.award_badges 25 2 [History.Row 1 [] 30])
             (Badges.award_badges 15 7 [History.Row 1 [] 30]).
Proof.
  assert (Htotal : 15 <= 25) by (apply Qle_bool_iff; reflexivity).
  assert (Hstreak : (2 <= 7)%Z) by lia.
  split; [exact Htotal|]. split; [exact Hstreak|].
  exact (award_badges_monotone 25 15 2 7 [History.Row 1 [] 30]
           Htotal Hstreak).
Defined.

(** X8. The badges are at most five and all different, and the 7-day
    streak badge never comes without the 3-day streak badge. *)
Theorem award_badges_consistent
    (today_total : Q) (streak : Z) (df : History.DataFrame) :
  let badges := Badges.award_badges today_total streak df in
  (length badges <= 5)%nat
  /\ NoDup badges
  /\ (In Badges.streak7 badges -> In Badges.streak3 badges).
Proof.
  cbv zeta. rewrite BadgesFacts.award_badges_parts.
  destruct (Z.leb_spec 3 streak) as [H3|H3],
    (Z.leb_spec 7 streak) as [H7|H7]; try lia;
    destruct df as [|r df];
    destruct (Qlt_le_dec today_total 20);
    destruct (Badges.beats_average today_total _);
    (split; [cbn; lia|]);
    (split; [apply (bool_decide_unpack _); vm_compute; reflexivity|]);
    cbn; intros H; intuition (try discriminate).
Qed.

(** ** The dominant category *)

Module IconFacts.
Import Icon.


End IconFacts.


(** ** What can make the build fail *)

Module FailureFacts.
Import Pdf Observe RunFacts.

(** A block that ends with a canvas call the surface always refuses does
    not return. *)
Lemma refused_call_raises {A} surface (m : M A) (o : op) (e : string)
    (st : state) :
  (forall c, surface c o = Some e) ->
  exists st' e', (m ≫= fun _ => emit surface o) st = (st', Raise e').
Proof.
  intros Hrefuse. rewrite bind_run. destruct (m st) as [st1 [x|e1]].
  - unfold emit. rewrite Hrefuse. eexists. eexists. reflexivity.
  - eexists. eexists. reflexivity.
Qed.

End FailureFacts.

(** X10. Only the ReportLab import and the drawing surface can make the
    build fail: when the import succeeds and no canvas call raises, a
    page-terminated document is returned whatever the colour parser, the
    image decoder and the chart renderers do, failures included. *)
Theorem build_survives_asset_failures
    (surface : list Pdf.op -> Pdf.op -> option string) (mpl_ok : bool)
    (HexColor : string -> option Pdf.Color)
    (ImageReader : Pdf.bytes -> option Pdf.Image)
    (simpleSplit : string -> string -> Q -> Q -> list string)
    (fmt_emissions : Q -> string)
    (plot_series :
       option string -> option string -> option string -> string -> list Q ->
       option Pdf.Image)
    (plot_pie : option string -> option string -> dict Q -> option Pdf.Image)
    (a : Pdf.args) :
  Observe.never_raises surface ->
  exists doc,
    Pdf.build_eco_tips_pdf surface None mpl_ok HexColor ImageReader
      simpleSplit fmt_emissions plot_series plot_pie a = (Some doc, None)
    /\ Observe.page_terminated doc.
Proof.
  intros R. unfold Pdf.build_eco_tips_pdf.
  destruct (BuildFacts.returns_body surface mpl_ok HexColor ImageReader
              simpleSplit fmt_emissions plot_series plot_pie a R Pdf.fresh)
    as (x & Hret).
  destruct (Pdf.body surface mpl_ok HexColor ImageReader simpleSplit
              fmt_emissions plot_series plot_pie a Pdf.fresh)
    as [st [[]|e]] eqn:E; [|discriminate Hret].
  exists (Pdf.canvas st). split; [reflexivity|].
  eapply DocFacts.body_terminated. exact E.
Qed.

Lemma build_survives_witness :
  Observe.never_raises Sample.reliable
  /\ exists doc,
       Pdf.build_eco_tips_pdf Sample.reliable None true
         (fun _ => None) (fun _ => None) Sample.simpleSplit
         Sample.fmt_emissions (fun _ _ _ _ _ => None) (fun _ _ _ => None)
         Sample.broken_colors = (Some doc, None)
       /\ Observe.page_terminated doc.
Proof.
  assert (R : Observe.never_raises Sample.reliable)
    by (intros c o; reflexivity).
  split; [exact R|].
  exact (build_survives_asset_failures Sample.reliable true
           (fun _ => None) (fun _ => None) Sample.simpleSplit
           Sample.fmt_emissions (fun _ _ _ _ _ => None) (fun _ _ _ => None)
           Sample.broken_colors R).
Defined.

(** X11. No document without a successful [save]: when the surface
    refuses [c.save()], the build returns no document and an error
    message that starts with "Failed to build PDF: ". *)
Theorem build_reports_failed_save
    (surface : list Pdf.op -> Pdf.op -> option string) (mpl_ok : bool)
    (HexColor : string -> option Pdf.Color)
    (ImageReader : Pdf.bytes -> option Pdf.Image)
    (simpleSplit : string -> string -> Q -> Q -> list string)
    (fmt_emissions : Q -> string)
    (plot_series :
       option string -> option string -> option string -> string -> list Q ->
       option Pdf.Image)
    (plot_pie : option string -> option string -> dict Q -> option Pdf.Image)
    (a : Pdf.args) (e : string) :
  (forall c, surface c Pdf.Save = Some e) ->
  exists cause,
    Pdf.build_eco_tips_pdf surface None mpl_ok HexColor ImageReader
      simpleSplit fmt_emissions plot_series plot_pie a
    = (None, Some ("Failed to build PDF: " ++ cause)).
Proof.
  intros Hrefuse. unfold Pdf.build_eco_tips_pdf.
  destruct (Pdf.body surface mpl_ok HexColor ImageReader simpleSplit
              fmt_emissions plot_series plot_pie a Pdf.fresh)
    as [st [[]|cause]] eqn:E.
  - exfalso. unfold Pdf.body in E.
    apply RunFacts.bind_returned in E as (x1 & st1 & _ & E).
    apply RunFacts.bind_returned in E as (x2 & st2 & _ & E).
    unfold Pdf.finish in E.
    destruct (FailureFacts.refused_call_raises surface
                (Pdf._show_page surface HexColor a) Pdf.Save e st2 Hrefuse)
      as (st' & e' & Hraise).
    rewrite Hraise in E. discriminate E.
  - exists cause. reflexivity.
Qed.

Lemma build_reports_failed_save_witness :
  (forall c,
     (fun (_ : list Pdf.op) (o : Pdf.op) =>
        match o with Pdf.Save => Some "disk full" | _ => None end)
       c Pdf.Save = Some "disk full")
  /\ exists cause,
       Pdf.build_eco_tips_pdf
         (fun _ o => match o with Pdf.Save => Some "disk full" | _ => None end)
         None false Sample.HexColor Sample.ImageReader Sample.simpleSplit
         Sample.fmt_emissions Sample.plot_series Sample.plot_pie
         Sample.scenario
       = (None, Some ("Failed to build PDF: " ++ cause)).
Proof.
  split; [intros c; reflexivity|].
  exact (build_reports_failed_save
           (fun _ o => match o with Pdf.Save => Some "disk full" | _ => None end)
           false Sample.HexColor Sample.ImageReader Sample.simpleSplit
           Sample.fmt_emissions Sample.plot_series Sample.plot_pie
           Sample.scenario "disk full" (fun c => eq_refl)).
Defined.

(** ** Page numbers *)

Module PageFacts.
Import Pdf Observe Pages RunFacts BuildFacts.

Lemma numbered_snoc (c : list op) (o : op) :
  forall n,
    numbered_from n c ->
    match o with
    | DrawRightString _ _ text => text = page_label (n + pages_broken c)
    | _ => True
    end ->
    numbered_from n (c ++ [o]).
Proof.
  induction c as [|h c IH]; intros n Hc Ho.
  - cbn [app]. unfold pages_broken in Ho. cbn in Ho.
    rewrite Nat.add_0_r in Ho.
    destruct o; cbn [numbered_from]; auto.
  - assert (Hstep : pages_broken (h :: c)
                    = ((if is_show_page h then 1 else 0)
                       + pages_broken c)%nat).
    { unfold pages_broken. cbn [List.filter].
      destruct (is_show_page h); reflexivity. }
    rewrite Hstep in Ho.
    destruct h; cbn [app numbered_from is_show_page] in *;
      try (apply IH; [exact Hc|exact Ho]).
    + destruct Hc as [Htext Hc]. split; [exact Htext|].
      apply IH; [exact Hc|exact Ho].
    + apply IH; [exact Hc|].
      destruct o; auto. rewrite Ho. f_equal. lia.
Qed.

Section Closure.

Context {I : list op -> Prop}.

Lemma preserves_ret {A} (x : A) : preserves I (mret x : M A).
Proof. intros st H. exact H. Qed.

Lemma preserves_raise {A} (e : string) : preserves I (raise e : M A).
Proof. intros st H. exact H. Qed.

Lemma preserves_get_y : preserves I get_y.
Proof. intros st H. exact H. Qed.

Lemma preserves_set_y (v : Q) : preserves I (set_y v).
Proof. intros st H. exact H. Qed.

Lemma preserves_sub_y (h : Q) : preserves I (sub_y h).
Proof. intros st H. exact H. Qed.

Lemma preserves_bind {A B} (m : M A) (k : A -> M B) :
  preserves I m -> (forall x, preserves I (k x)) -> preserves I (m ≫= k).
Proof.
  intros Hm Hk st H. rewrite bind_run. specialize (Hm st H).
  destruct (m st) as [st1 [x|e]]; cbn [fst] in Hm.
  - apply Hk. exact Hm.
  - exact Hm.
Qed.

Lemma preserves_try {A} (body handler : M A) :
  preserves I body -> preserves I handler ->
  preserves I (try_except body handler).
Proof.
  intros Hb Hh st H. unfold try_except. specialize (Hb st H).
  destruct (body st) as [st1 [x|e]]; cbn [fst] in Hb.
  - exact Hb.
  - apply Hh. exact Hb.
Qed.

Lemma preserves_for_each {A} (l : list A) (f : A -> M unit) :
  (forall x, preserves I (f x)) -> preserves I (for_each l f).
Proof.
  intros Hf. induction l as [|x l IH]; cbn [for_each].
  - apply preserves_ret.
  - apply preserves_bind; [apply Hf|intros _; exact IH].
Qed.

Lemma preserves_for_fold {A S} (l : list A) (f : S -> A -> M S) (s : S) :
  (forall s x, preserves I (f s x)) -> preserves I (for_fold l f s).
Proof.
  intros Hf. revert s. induction l as [|x l IH]; intros s; cbn [for_fold].
  - apply preserves_ret.
  - apply preserves_bind; [apply Hf|intros s'; apply IH].
Qed.

End Closure.

(** A canvas call that is no page label keeps the numbering. *)
Lemma preserves_emit_plain surface (o : op) :
  is_label o = false -> preserves (numbered_from 1) (emit surface o).
Proof.
  intros Ho st H. unfold emit. destruct (surface (canvas st) o); [exact H|].
  cbn [fst canvas]. apply numbered_snoc; [exact H|].
  destruct o; try exact I. discriminate Ho.
Qed.

(** The label drawn by the footer is the current page number. *)
Lemma preserves_page_label surface (x y : Q) :
  preserves (numbered_from 1)
    (n ← getPageNumber;
     emit surface
       (DrawRightString x y ("Page " ++ Num.Z_to_string (Z.of_nat n)))).
Proof.
  intros st H. rewrite bind_run. cbv beta iota delta [getPageNumber].
  unfold emit.
  destruct (surface (canvas st) _); [exact H|].
  cbn [fst canvas]. apply numbered_snoc; [exact H|]. reflexivity.
Qed.

Ltac preserves_steps known :=
  repeat first
    [ known
    | apply preserves_ret | apply preserves_raise | apply preserves_get_y
    | apply preserves_set_y | apply preserves_sub_y
    | apply preserves_page_label
    | apply preserves_try
    | apply preserves_for_each; intros ?
    | apply preserves_for_fold; intros ? ?
    | apply preserves_emit_plain; reflexivity
    | apply preserves_bind; [|intros ?]
    | split_cases ].

Section Sections.

Variable surface : list op -> op -> option string.
Variable mpl_ok : bool.
Variable HexColor : string -> option Color.
Variable ImageReader : bytes -> option Image.
Variable simpleSplit : string -> string -> Q -> Q -> list string.
Variable fmt_emissions : Q -> string.
Variable plot_series :
  option string -> option string -> option string -> string -> list Q ->
  option Image.
Variable plot_pie : option string -> option string -> dict Q -> option Image.
Variable a : args.

Lemma numbered_show_page :
  preserves (numbered_from 1) (_show_page surface HexColor a).
Proof.
  unfold _show_page, _draw_footer, fill_from, hex_color, pass.
  preserves_steps fail.
Qed.

Lemma numbered_category_lines (items : list (string * Q)) :
  preserves (numbered_from 1) (category_lines surface a items).
Proof.
  induction items as [|e rest IH]; cbn [category_lines].
  - apply preserves_ret.
  - unfold pass. preserves_steps ltac:(exact IH).
Qed.

Lemma numbered_body :
  preserves (numbered_from 1)
    (body surface mpl_ok HexColor ImageReader simpleSplit fmt_emissions
       plot_series plot_pie a).
Proof.
  unfold body, leading_sections, middle_sections, title_section, badge,
    image_reader, meta_line, kpi_section, sparkline_section, spark_cell,
    summary_block, tip_block, paragraph_line, category_section, pie_chart,
    activity_section, activity_line, finish, break_if_below, fill_from,
    hex_color, pass.
  preserves_steps
    ltac:(first [apply numbered_show_page | apply numbered_category_lines]).
Qed.

End Sections.

End PageFacts.

(** X12. Page numbers are right: in every document the build returns,
    each right-aligned text (only the footer draws one) reads "Page n"
    with n the number of the page it is drawn on, counted from 1 by the
    page breaks before it. *)
Theorem footers_carry_their_page_number
    (surface : list Pdf.op -> Pdf.op -> option string)
    (reportlab_import : option string) (mpl_ok : bool)
    (HexColor : string -> option Pdf.Color)
    (ImageReader : Pdf.bytes -> option Pdf.Image)
    (simpleSplit : string -> string -> Q -> Q -> list string)
    (fmt_emissions : Q -> string)
    (plot_series :
       option string -> option string -> option string -> string -> list Q ->
       option Pdf.Image)
    (plot_pie : option string -> option string -> dict Q -> option Pdf.Image)
    (a : Pdf.args) :
  match fst (Pdf.build_eco_tips_pdf surface reportlab_import mpl_ok
               HexColor ImageReader simpleSplit fmt_emissions plot_series
               plot_pie a) with
  | Some doc => Pages.numbered_from 1 doc
  | None => True
  end.
Proof.
  unfold Pdf.build_eco_tips_pdf.
  destruct reportlab_import; [exact I|].
  pose proof (PageFacts.numbered_body surface mpl_ok HexColor ImageReader
                simpleSplit fmt_emissions plot_series plot_pie a
                Pdf.fresh I) as H.
  destruct (Pdf.body surface mpl_ok HexColor ImageReader simpleSplit
              fmt_emissions plot_series plot_pie a Pdf.fresh)
    as [st [x|e]]; [exact H|exact I].
Qed.

(** ** Emissions grow with the amounts *)

Module EmissionsMore.
Import Num Emissions.

Lemma round_half_even_mono (p q : Q) :
  p <= q -> (round_half_even p <= round_half_even q)%Z.
Proof.
  intros Hpq. pose proof (Qfloor_resp_le _ _ Hpq) as Hfl.
  pose proof (Qfloor_le p) as Hp1. pose proof (Qlt_floor p) as Hp2.
  pose proof (Qfloor_le q) as Hq1. pose proof (Qlt_floor q) as Hq2.
  assert (Hlo : forall x, (Qfloor x <= round_half_even x)%Z).
  { intros x. unfold round_half_even.
    destruct (Qcompare _ _); [destruct (Z.even _)| |]; lia. }
  assert (Hhi : forall x, (round_half_even x <= Qfloor x + 1)%Z).
  { intros x. unfold round_half_even.
    destruct (Qcompare _ _); [destruct (Z.even _)| |]; lia. }
  destruct (Z.eq_dec (Qfloor p) (Qfloor q)) as [E|NE].
  - unfold round_half_even. rewrite E.
    destruct (Qcompare_spec (p - inject_Z (Qfloor q)) (1 # 2)) as [Cp|Cp|Cp];
      destruct (Qcompare_spec (q - inject_Z (Qfloor q)) (1 # 2)) as [Cq|Cq|Cq];
      try (destruct (Z.even (Qfloor q))); try lia; exfalso; lra.
  - specialize (Hhi p). specialize (Hlo q). lia.
Qed.

Lemma round2_mono (p q : Q) : p <= q -> round2 p <= round2 q.
Proof.
  intros Hpq. unfold round2.
  assert (H : (round_half_even (p * 100) <= round_half_even (q * 100))%Z)
    by (apply round_half_even_mono; lra).
  rewrite Zle_Qle in H. unfold Qdiv.
  apply Qmult_le_compat_r; [exact H|]. vm_compute. discriminate.
Qed.

Lemma round2_nonneg (p : Q) : 0 <= p -> 0 <= round2 p.
Proof.
  intros Hp. apply round2_mono in Hp.
  eapply Qle_trans; [|exact Hp]. vm_compute. discriminate.
Qed.

Section WithFactors.

Variable CO2_FACTORS : gmap string Q.
Hypothesis factors_nonneg : forall k f, CO2_FACTORS !! k = Some f -> 0 <= f.

Lemma terms_mono (d d' : gmap string pyval) (keys : list string) :
  (forall k, spec_amount d k <= spec_amount d' k) ->
  fold_right Qplus 0 (spec_factor_terms CO2_FACTORS d keys)
  <= fold_right Qplus 0 (spec_factor_terms CO2_FACTORS d' keys).
Proof.
  intros Hle. induction keys as [|k keys IH]; [apply Qle_refl|].
  unfold spec_factor_terms in *. cbn [omap list_omap].
  destruct (CO2_FACTORS !! k) as [f|] eqn:Ef; [|exact IH].
  cbn [fold_right]. pose proof (factors_nonneg k f Ef) as Hf.
  pose proof (Hle k) as Hk.
  assert (spec_amount d k * f <= spec_amount d' k * f)
    by (apply Qmult_le_compat_r; assumption).
  lra.
Qed.

Lemma terms_nonneg (d : gmap string pyval) (keys : list string) :
  (forall k, 0 <= spec_amount d k) ->
  0 <= fold_right Qplus 0 (spec_factor_terms CO2_FACTORS d keys).
Proof.
  intros Hle. induction keys as [|k keys IH]; [apply Qle_refl|].
  unfold spec_factor_terms in *. cbn [omap list_omap].
  destruct (CO2_FACTORS !! k) as [f|] eqn:Ef; [|exact IH].
  cbn [fold_right]. pose proof (factors_nonneg k f Ef) as Hf.
  pose proof (Qmult_le_0_compat _ _ (Hle k) Hf). lra.
Qed.

End WithFactors.

(** The amounts the source reads are those of the specification. *)
Lemma amounts_le (d d' : gmap string pyval) :
  (forall k a a', amount d k = Some a -> amount d' k = Some a' -> a <= a') ->
  forall k, spec_amount d k <= spec_amount d' k.
Proof.
  intros H k.
  destruct (EmissionsFacts.amount_spec d k) as (q & Hq & Eq).
  destruct (EmissionsFacts.amount_spec d' k) as (q' & Hq' & Eq').
  rewrite <- Eq, <- Eq'. exact (H k q q' Hq Hq').
Qed.

Lemma amounts_nonneg (d : gmap string pyval) :
  (forall k a, amount d k = Some a -> 0 <= a) ->
  forall k, 0 <= spec_amount d k.
Proof.
  intros H k.
  destruct (EmissionsFacts.amount_spec d k) as (q & Hq & Eq).
  rewrite <- Eq. exact (H k q Hq).
Qed.

(** A sample table of factors and two forms. *)
Lemma sample_factors_nonneg (k : string) (f : Q) :
  ({[ "bus_km" := 0.1 ]} : gmap string Q) !! k = Some f -> 0 <= f.
Proof.
  intros H. apply lookup_singleton_Some in H as [_ <-].
  apply Qle_bool_iff. reflexivity.
Qed.

Lemma sample_amounts_le (k : string) (a a' : Q) :
  amount ∅ k = Some a ->
  amount ({[ "bus_km" := PyFloat 12 ]} : gmap string pyval) k = Some a' ->
  a <= a'.
Proof.
  unfold amount. rewrite lookup_empty. cbn. intros [= <-].
  destruct (decide (k = "bus_km")) as [->|Hne].
  - rewrite lookup_singleton. cbn. intros [= <-].
    apply Qle_bool_iff. reflexivity.
  - rewrite lookup_singleton_ne by congruence. cbn. intros [= <-].
    apply Qle_refl.
Qed.

End EmissionsMore.

(** X13. With factors that are not negative, emissions grow with the
    amounts: if no amount of a form is above the amount of another form,
    none of its three category totals is above the other's, rounding
    included; and amounts that are not negative give totals that are not
    negative. *)
Theorem emissions_grow_with_amounts
    (CO2_FACTORS : gmap string Q)
    (less more : gmap string Emissions.pyval) :
  (forall k f, CO2_FACTORS !! k = Some f -> 0 <= f) ->
  (forall k a a',
     Emissions.amount less k = Some a ->
     Emissions.amount more k = Some a' -> a <= a') ->
  exists r r',
    Emissions.compute_category_emissions CO2_FACTORS less = Some r
    /\ Emissions.compute_category_emissions CO2_FACTORS more = Some r'
    /\ Forall2 (fun e e' => fst e = fst e' /\ snd e <= snd e') r r'
    /\ ((forall k a, Emissions.amount less k = Some a -> 0 <= a) ->
        Forall (fun e => 0 <= snd e) r).
Proof.
  intros Hf Hle.
  rewrite !EmissionsFacts.compute_is_spec.
  eexists. eexists. split; [reflexivity|]. split; [reflexivity|].
  pose proof (EmissionsMore.amounts_le less more Hle) as Hspec.
  unfold Emissions.spec_category_emissions, Emissions.spec_category_total.
  split.
  - induction Emissions.CATEGORY_MAP as [|[cat keys] rest IH];
      cbn [map fst snd]; constructor; [|exact IH].
    split; [reflexivity|]. cbn [fst snd].
    apply EmissionsMore.round2_mono.
    apply EmissionsMore.terms_mono; assumption.
  - intros Hpos.
    pose proof (EmissionsMore.amounts_nonneg less Hpos) as Hspec0.
    induction Emissions.CATEGORY_MAP as [|[cat keys] rest IH];
      cbn [map fst snd]; constructor; [|exact IH]. cbn [snd].
    apply EmissionsMore.round2_nonneg.
    apply EmissionsMore.terms_nonneg; assumption.
Qed.

Lemma emissions_grow_witness :
  exists r r',
    Emissions.compute_category_emissions {[ "bus_km" := 0.1 ]} ∅ = Some r
    /\ Emissions.compute_category_emissions {[ "bus_km" := 0.1 ]}
         {[ "bus_km" := Emissions.PyFloat 12 ]} = Some r'
    /\ Forall2 (fun e e' => fst e = fst e' /\ snd e <= snd e') r r'.
Proof.
  destruct (emissions_grow_with_amounts {[ "bus_km" := 0.1 ]} ∅
              {[ "bus_km" := Emissions.PyFloat 12 ]}
              EmissionsMore.sample_factors_nonneg
              EmissionsMore.sample_amounts_le)
    as (r & r' & H1 & H2 & H3 & _).
  exists r, r'. split; [exact H1|]. split; [exact H2|exact H3].
Defined.

(** ** Inline warnings *)

Module WarningsFacts.
Import Validation Warnings.




End WarningsFacts.


(** ** The KPI block *)

Module KpiFacts.
Import Pdf Observe RunFacts.




End KpiFacts.



(** ** The header *)

Module HeaderFacts.
Import Pdf Observe RunFacts.

(** Running a block on a surface that never raises. *)
Ltac run R :=
  repeat first
    [ rewrite bind_run
    | rewrite (DocFacts.emit_run _ _ _ R)
    | progress cbv beta iota delta
        [try_except pass get_y set_y sub_y raise mret M_ret]
    | progress cbn [canvas cursor fst snd truthy] ].

Ltac done_with ops :=
  exists ops; split;
    [cbn [canvas]; rewrite <- ?app_assoc, ?app_nil_r; reflexivity|].

(** Colour changes are neither text, nor image, nor badge. *)
Lemma fills_are_silent (ops : list op) :
  Forall (fun o => is_fill o = true) ops ->
  List.filter Header.is_text ops = []
  /\ existsb is_image ops = false
  /\ existsb is_badge ops = false.
Proof.
  induction 1 as [|o ops Ho _ (IH1 & IH2 & IH3)]; [repeat split|].
  destruct o; try discriminate Ho;
    cbn [List.filter Header.is_text existsb is_image is_badge orb];
    repeat split; assumption.
Qed.

Section Header.

Variable surface : list op -> op -> option string.
Variable HexColor : string -> option Color.
Variable ImageReader : bytes -> option Image.
Variable a : args.
Hypothesis R : never_raises surface.

Lemma primary_fill_run (st : state) :
  exists ops,
    try_except (fill_from surface HexColor (primary_color a)) pass st
    = (State (canvas st ++ ops) (cursor st), Ret tt)
    /\ Forall (fun o => is_fill o = true) ops.
Proof.
  unfold fill_from, hex_color. destruct st as [c y].
  destruct (primary_color a) as [p|];
    [destruct (truthy (Some p)); [destruct (HexColor p)|]|];
    run R;
    ((exists []; split; [rewrite app_nil_r; reflexivity|constructor])
     || (eexists [_]; split; [reflexivity|repeat constructor])).
Qed.

Lemma body_fill_run (st : state) :
  exists ops,
    try_except
      (if truthy (text_hex a) then fill_from surface HexColor (text_hex a)
       else emit surface (SetFillColorRGB 0 0 0))
      (emit surface (SetFillColorRGB 0 0 0)) st
    = (State (canvas st ++ ops) (cursor st), Ret tt)
    /\ Forall (fun o => is_fill o = true) ops.
Proof.
  unfold fill_from, hex_color. destruct st as [c y].
  destruct (text_hex a) as [t|];
    [destruct (truthy (Some t)); [destruct (HexColor t)|]|];
    run R;
    ((exists []; split; [rewrite app_nil_r; reflexivity|constructor])
     || (eexists [_]; split; [reflexivity|repeat constructor])).
Qed.

(** The logo, the badge, or neither, and the title. *)
Lemma emblem_run (y : Q) (st : state) :
  exists ops,
    try_except
      (match logo_bytes a with
       | Some b =>
           if truthy (logo_bytes a) then
             img ← image_reader ImageReader b;
             emit surface
               (DrawImage img (left a) (y - 0.5 * cm) (2.2 * cm) (2.2 * cm));;
             emit surface (DrawString (left a + 2.5 * cm) y (draw_title a))
           else
             try_except (badge surface HexColor a y) pass;;
             emit surface (SetFillColorRGB 0 0 0);;
             emit surface (DrawString (left a + 2.5 * cm) y (draw_title a))
       | None =>
           try_except (badge surface HexColor a y) pass;;
           emit surface (SetFillColorRGB 0 0 0);;
           emit surface (DrawString (left a + 2.5 * cm) y (draw_title a))
       end)
      (emit surface (DrawString (left a) y (draw_title a))) st
    = (State (canvas st ++ ops) (cursor st), Ret tt)
    /\ List.filter Header.is_text ops
       = [DrawString (Header.title_x ImageReader a) y (draw_title a)]
    /\ existsb is_image ops = Header.logo_drawn ImageReader a
    /\ existsb is_badge ops = Header.badge_drawn HexColor a.
Proof.
  unfold badge, fill_from, hex_color, image_reader, Header.title_x,
    Header.logo_drawn, Header.badge_drawn.
  destruct st as [c y0].
  destruct (logo_bytes a) as [b|];
    [destruct (truthy (Some b)); [destruct (ImageReader b)|]|];
    (destruct (primary_color a) as [p|];
       [destruct (truthy (Some p)); [destruct (HexColor p)|]|]);
    run R;
    (eexists; split;
       [rewrite <- ?app_assoc; cbn [app]; reflexivity|];
     repeat split; reflexivity).
Qed.

End Header.

End HeaderFacts.

(** X16. The header draws the title exactly once, at the top of the page,
    and beside it the logo or the badge, never both: the logo when logo
    bytes are supplied and decode, the badge when no logo bytes are
    supplied and the primary colour, if given, parses.  Supplied bytes
    that do not decode leave the title alone at the left margin;
    otherwise it starts 2.5 cm to the right. *)
Theorem header_shows_title_and_one_emblem
    (surface : list Pdf.op -> Pdf.op -> option string)
    (HexColor : string -> option Pdf.Color)
    (ImageReader : Pdf.bytes -> option Pdf.Image)
    (a : Pdf.args) :
  Observe.never_raises surface ->
  forall st, exists st' ops,
    Pdf.title_section surface HexColor ImageReader a st = (st', Pdf.Ret tt)
    /\ Pdf.canvas st' = (Pdf.canvas st ++ ops)%list
    /\ List.filter Header.is_text ops
       = [ Pdf.DrawString (Header.title_x ImageReader a)
             (Pdf.height - Pdf.top_m a) (Pdf.draw_title a) ]
    /\ existsb Observe.is_image ops = Header.logo_drawn ImageReader a
    /\ existsb Observe.is_badge ops = Header.badge_drawn HexColor a
    /\ Header.logo_drawn ImageReader a && Header.badge_drawn HexColor a
       = false
    /\ Pdf.cursor st' = Pdf.height - Pdf.top_m a - 0.4 * Pdf.cm.
Proof.
  intros R st. unfold Pdf.title_section.
  rewrite RunFacts.bind_run. cbv beta iota delta [Pdf.set_y].
  rewrite RunFacts.bind_run, DocFacts.emit_run by exact R.
  rewrite RunFacts.bind_run, DocFacts.emit_run by exact R.
  cbn [Pdf.canvas Pdf.cursor].
  rewrite RunFacts.bind_run.
  match goal with
  | |- context [Pdf.try_except _ Pdf.pass ?s] =>
      destruct (HeaderFacts.primary_fill_run surface HexColor a R s)
        as (ops1 & H1 & F1); rewrite H1; clear H1
  end.
  cbn [Pdf.canvas Pdf.cursor].
  rewrite RunFacts.bind_run. cbv beta iota delta [Pdf.get_y].
  cbn [Pdf.canvas Pdf.cursor].
  rewrite RunFacts.bind_run.
  match goal with
  | |- context [Pdf.try_except _ _ ?s] =>
      destruct (HeaderFacts.emblem_run surface HexColor ImageReader a R
                  (Pdf.height - Pdf.top_m a) s)
        as (ops2 & H2 & T2 & I2 & B2); rewrite H2; clear H2
  end.
  cbn [Pdf.canvas Pdf.cursor].
  rewrite RunFacts.bind_run.
  match goal with
  | |- context [Pdf.try_except _ _ ?s] =>
      destruct (HeaderFacts.body_fill_run surface HexColor a R s)
        as (ops3 & H3 & F3); rewrite H3; clear H3
  end.
  cbv beta iota delta [Pdf.sub_y]. cbn [Pdf.canvas Pdf.cursor].
  destruct (HeaderFacts.fills_are_silent ops1 F1) as (T1 & I1 & B1).
  destruct (HeaderFacts.fills_are_silent ops3 F3) as (T3 & I3 & B3).
  eexists.
  exists ([Pdf.SetTitle "Eco Tips Summary"; Pdf.SetFont "Helvetica-Bold" 19]
            ++ ops1 ++ ops2 ++ ops3)%list.
  split; [reflexivity|]. cbn [Pdf.canvas Pdf.cursor].
  split; [rewrite <- !app_assoc; reflexivity|].
  split; [|split; [|split; [|split; [|reflexivity]]]].
  - cbn [app List.filter Header.is_text].
    rewrite !List.filter_app, T1, T2, T3. reflexivity.
  - cbn [app existsb Observe.is_image orb].
    rewrite !existsb_app, I1, I2, I3.
    destruct (Header.logo_drawn ImageReader a); reflexivity.
  - cbn [app existsb Observe.is_badge orb].
    rewrite !existsb_app, B1, B2, B3.
    destruct (Header.badge_drawn HexColor a); reflexivity.
  - unfold Header.logo_drawn, Header.badge_drawn.
    destruct (Pdf.logo_bytes a) as [b|]; [|reflexivity].
    destruct (Pdf.truthy (Some b)); [|reflexivity].
    cbn [negb andb]. apply andb_false_r.
Qed.

Lemma header_witness :
  exists st' ops,
    Pdf.title_section Sample.reliable Sample.HexColor Sample.ImageReader
      Sample.scenario Pdf.fresh = (st', Pdf.Ret tt)
    /\ Pdf.canvas st' = ops
    /\ existsb Observe.is_badge ops = true.
Proof.
  destruct (header_shows_title_and_one_emblem Sample.reliable
              Sample.HexColor Sample.ImageReader Sample.scenario
              (fun c o => eq_refl) Pdf.fresh)
    as (st' & ops & Hrun & Hcanvas & _ & _ & Hbadge & _).
  exists st', ops. split; [exact Hrun|]. split; [exact Hcanvas|].
  exact Hbadge.
Defined.

(** ** The summaries *)

Module SummaryFacts.
Import Validation Summary.

Lemma join_cons (sep x : string) (l : list string) :
  l <> [] -> Text.join sep (x :: l) = x ++ sep ++ Text.join sep l.
Proof. destruct l; [contradiction|reflexivity]. Qed.

(** Joining the meals first and then everything is joining everything. *)
Lemma join_flatten (sep : string) (l m : list string) :
  m <> [] ->
  Text.join sep (l ++ [Text.join sep m])%list = Text.join sep (l ++ m)%list.
Proof.
  intros Hm. induction l as [|x l IH]; cbn [app]; [reflexivity|].
  rewrite !join_cons.
  - rewrite IH. reflexivity.
  - destruct l; [exact Hm|discriminate].
  - destruct l; discriminate.
Qed.

(** The two steps of [format_summary] make one joined text. *)
Lemma summary_shape (d : string) (P M : list string) :
  match
    match M with
    | [] => P
    | _ :: _ => (P ++ [Text.join " | " M])%list
    end
  with
  | [] => d
  | _ :: _ =>
      Text.join " | "
        match M with
        | [] => P
        | _ :: _ => (P ++ [Text.join " | " M])%list
        end
  end
  = match (P ++ M)%list with
    | [] => d
    | _ :: _ => Text.join " | " (P ++ M)%list
    end.
Proof.
  destruct M as [|m M]; [rewrite app_nil_r; reflexivity|].
  set (X := m :: M).
  destruct (P ++ [Text.join " | " X])%list as [|y ys] eqn:E1.
  - apply app_eq_nil in E1 as [_ E1]. discriminate E1.
  - rewrite <- E1, join_flatten by discriminate.
    destruct (P ++ X)%list eqn:E2; [|reflexivity].
    apply app_eq_nil in E2 as [_ E2]. discriminate E2.
Qed.

Lemma gt0_truthy (x : pyfloat) :
  gt0 x = true -> truthy (VFloat x) = true.
Proof.
  destruct x as [q| |negative]; cbn; [|discriminate|reflexivity].
  destruct (Qlt_le_dec 0 q) as [Hq|]; [intros _|discriminate].
  destruct (Qeq_bool q 0) eqn:E; [|reflexivity].
  apply Qeq_bool_iff in E. rewrite E in Hq. exfalso.
  exact (Qlt_irrefl 0 Hq).
Qed.

Lemma flat_map_nil {A B} (f : A -> list B) (l : list A) :
  flat_map f l = [] <-> forall x, In x l -> f x = [].
Proof.
  induction l as [|x l IH]; cbn [flat_map].
  - split; [intros _ x []|reflexivity].
  - split.
    + intros H. apply app_eq_nil in H as [Hx Hl].
      intros y [<-|Hy]; [exact Hx|]. apply IH; assumption.
    + intros H. rewrite (H x (or_introl eq_refl)).
      apply IH. intros y Hy. apply H. right. exact Hy.
Qed.

Lemma flat_map_short {A B} (f : A -> list B) (l : list A) :
  (forall x, (length (f x) <= 1)%nat) ->
  (length (flat_map f l) <= length l)%nat.
Proof.
  intros Hf. induction l as [|x l IH]; cbn [flat_map length]; [lia|].
  rewrite length_app. specialize (Hf x). lia.
Qed.

Section WithParser.

Variable parse_float : string -> option pyfloat.
Variable user_data : dict value.

Local Abbreviation tagged :=
  (fun t : string * string => tag (fst t) (snd t)).

Lemma part_entry (key label unit : string) (f : spec) (color : string) :
  part parse_float user_data key label f unit
  = map fst (entry parse_float user_data (key, label, unit, f, color)).
Proof.
  unfold part, entry, _num.
  destruct (_coerce_float parse_float (get user_data key)) as [x|] eqn:E.
  - destruct (gt0 x) eqn:G.
    + rewrite (gt0_truthy x G). reflexivity.
    + destruct (truthy (VFloat x)); reflexivity.
  - destruct (get user_data key) as [|x|s]; cbn in E |- *.
    + reflexivity.
    + discriminate E.
    + destruct (negb (String.eqb s "")); reflexivity.
Qed.

Lemma leading_parts_entries :
  leading_parts parse_float user_data
  = map fst
      (flat_map (entry parse_float user_data)
         (map (fun r => (r, trans_color)) transport_rows
          ++ map (fun r => (r, energy_color)) energy_rows)).
Proof.
  unfold transport_rows, energy_rows. cbn [map app flat_map].
  rewrite !map_app. cbn [map]. rewrite app_nil_r.
  rewrite <- !part_entry. reflexivity.
Qed.

Lemma meal_bits_entries (rows : list (string * string)) :
  flat_map (meal_bit parse_float user_data) rows
  = map fst
      (flat_map (entry parse_float user_data)
         (map (fun r => (fst r, snd r, "kg", F2, meal_color)) rows)).
Proof.
  induction rows as [|[key label] rows IH]; [reflexivity|].
  cbn [map flat_map fst snd]. rewrite map_app, <- IH. f_equal.
  unfold meal_bit, entry, _num. cbn [fst snd].
  destruct (_coerce_float parse_float (get user_data key)) as [x|] eqn:E.
  - destruct (gt0 x); reflexivity.
  - destruct (get user_data key) as [|x|s]; cbn in E |- *;
      [reflexivity|discriminate E|reflexivity].
Qed.

Lemma html_rows_entries (color : string)
    (rows : list (string * string * string * spec)) :
  flat_map (html_row parse_float user_data color) rows
  = map tagged
      (flat_map (entry parse_float user_data)
         (map (fun r => (r, color)) rows)).
Proof.
  induction rows as [|[[[key icon] unit] f] rows IH]; [reflexivity|].
  cbn [map flat_map]. rewrite map_app, <- IH. f_equal.
  unfold html_row, entry, float_or_zero.
  destruct (_coerce_float parse_float (get user_data key)) as [x|];
    cbn [default from_option id].
  - destruct (gt0 x); reflexivity.
  - reflexivity.
Qed.

Lemma html_meals_entries (rows : list (string * string)) :
  flat_map (html_meal parse_float user_data) rows
  = map tagged
      (flat_map (entry parse_float user_data)
         (map (fun r => (fst r, snd r, "kg", F2, meal_color)) rows)).
Proof.
  induction rows as [|[key label] rows IH]; [reflexivity|].
  cbn [map flat_map fst snd]. rewrite map_app, <- IH. f_equal.
  unfold html_meal, entry, float_or_zero. cbn [fst snd].
  destruct (_coerce_float parse_float (get user_data key)) as [x|];
    cbn [default from_option id].
  - destruct (gt0 x); reflexivity.
  - reflexivity.
Qed.

Lemma entry_nil (row : string * string * string * spec * string) :
  entry parse_float user_data row = []
  <-> positive parse_float
        (get user_data (fst (fst (fst (fst row))))) = false.
Proof.
  destruct row as [[[[key label] unit] f] color]. cbn [fst].
  unfold entry, positive.
  destruct (_coerce_float parse_float (get user_data key)) as [x|];
    [|split; reflexivity].
  destruct (gt0 x); split; (reflexivity || discriminate).
Qed.

Lemma entry_short (row : string * string * string * spec * string) :
  (length (entry parse_float user_data row) <= 1)%nat.
Proof.
  destruct row as [[[[key label] unit] f] color]. unfold entry.
  destruct (_coerce_float parse_float (get user_data key)) as [x|];
    [destruct (gt0 x)|]; cbn; lia.
Qed.

End WithParser.

End SummaryFacts.

(** X17. The two summaries agree.  Both are made of the same entries, one
    per shown field that holds a number above zero, with the same text
    and in the same order (transport, energy, meals): [format_summary]
    joins the texts with " | ", [format_summary_html] wraps each in its
    coloured tag and joins with newlines.  Each returns its "No activities
    logged yet." exactly when none of the fifteen shown fields is above
    zero, whatever the other fields hold. *)
Theorem summaries_show_the_same_entries
    (parse_float : string -> option Validation.pyfloat)
    (user_data : dict Validation.value) :
  let texts := Summary.entries parse_float user_data in
  Summary.format_summary parse_float user_data
  = match texts with
    | [] => "No activities logged yet."
    | _ :: _ => Text.join " | " (map fst texts)
    end
  /\ Summary.format_summary_html parse_float user_data
     = match texts with
       | [] => "<em>No activities logged yet.</em>"
       | _ :: _ =>
           Text.join (String (ascii_of_nat 10) EmptyString)
             (map (fun t => Summary.tag (fst t) (snd t)) texts)
       end
  /\ (texts = []
      <-> forall key, In key Summary.shown_keys ->
            Validation.positive parse_float (Summary.get user_data key)
            = false)
  /\ (length texts <= 15)%nat.
Proof.
  cbv zeta. unfold Summary.entries, Summary.shown.
  rewrite !flat_map_app.
  split; [|split; [|split]].
  - unfold Summary.format_summary. cbv zeta.
    rewrite SummaryFacts.leading_parts_entries,
      SummaryFacts.meal_bits_entries, flat_map_app.
    set (E1 := flat_map _ (map _ Summary.transport_rows)).
    set (E2 := flat_map _ (map _ Summary.energy_rows)).
    set (E3 := flat_map _ (map _ Summary.meal_rows)).
    rewrite (SummaryFacts.summary_shape Summary.no_activities
               (map fst (E1 ++ E2)%list) (map fst E3)).
    rewrite <- map_app, <- app_assoc.
    destruct (E1 ++ E2 ++ E3)%list; reflexivity.
  - unfold Summary.format_summary_html. cbv zeta.
    rewrite !SummaryFacts.html_rows_entries,
      SummaryFacts.html_meals_entries, <- !map_app.
    destruct (_ ++ _ ++ _)%list; reflexivity.
  - rewrite <- !flat_map_app, SummaryFacts.flat_map_nil.
    unfold Summary.shown_keys, Summary.shown. split.
    + intros H key Hkey. apply in_map_iff in Hkey as (row & <- & Hrow).
      apply SummaryFacts.entry_nil. apply H. exact Hrow.
    + intros H row Hrow. apply SummaryFacts.entry_nil. apply H.
      apply in_map_iff. exists row. split; [reflexivity|exact Hrow].
  - rewrite <- !flat_map_app.
    etransitivity;
      [apply SummaryFacts.flat_map_short, SummaryFacts.entry_short|].
    cbn. lia.
Qed.

(** ** The sparklines *)

Module ChartFacts.
Import Pdf Observe RunFacts.


Section Sparklines.

Variable surface : list op -> op -> option string.
Variable HexColor : string -> option Color.
Variable plot_series :
  option string -> option string -> option string -> string -> list Q ->
  option Image.
Variable a : args.
Hypothesis R : never_raises surface.




End Sparklines.

End ChartFacts.



(** ** One label per page *)

Module LabelFacts.
Import Pdf Observe Pages Labels RunFacts PageFacts.


Section Labelled.

Variable surface : list op -> op -> option string.
Variable mpl_ok : bool.
Variable HexColor : string -> option Color.
Variable ImageReader : bytes -> option Image.
Variable simpleSplit : string -> string -> Q -> Q -> list string.
Variable fmt_emissions : Q -> string.
Variable plot_series :
  option string -> option string -> option string -> string -> list Q ->
  option Image.
Variable plot_pie : option string -> option string -> dict Q -> option Image.
Variable a : args.
Hypothesis R : never_raises surface.






End Labelled.

End LabelFacts.


